(** * glm-vision: settings, error taxonomy and file service

    A shallow embedding of [src/types/errors.py], [src/config/settings.py]
    and [src/services/file_service.py], with the properties of the
    specification stated over it.

    Python values are embedded as follows.
    - [str] is [string]; [str.lower] is ASCII case folding.
    - [bytes] is [list byte].
    - [dict] is [gmap string _], [set] is [gset string].
    - A raised exception is the [Err] branch of [result]; [try]/[except]
      is [try_except] with the handlers in source order.
    - File-system and network calls are run against a read-only [World]
      and leave an [event] in the trace of the [IO] computation.
    - The standard-library and third-party functions the code calls
      ([urlparse], [Path.suffix], the HTTP client) are fields of [World];
      [model_world] gives executable versions of them. *)

From Stdlib Require Import ZArith QArith Ascii String Strings.Byte DecimalString List Lia.
From stdpp Require Import base option gmap strings list fin_maps.

Local Open Scope string_scope.
Local Open Scope Z_scope.

(* ===================================================================== *)
(** ** Python strings *)
(* ===================================================================== *)

Module PyStr.

Definition is_upper (c : ascii) : bool :=
  let n := N_of_ascii c in ((65 <=? n) && (n <=? 90))%N.

Definition is_lower (c : ascii) : bool :=
  let n := N_of_ascii c in ((97 <=? n) && (n <=? 122))%N.

Definition is_digit (c : ascii) : bool :=
  let n := N_of_ascii c in ((48 <=? n) && (n <=? 57))%N.

Definition lower_ascii (c : ascii) : ascii :=
  if is_upper c then ascii_of_N (N_of_ascii c + 32) else c.

(** [s.lower()] *)
Fixpoint lower (s : string) : string :=
  match s with
  | EmptyString => EmptyString
  | String c s' => String (lower_ascii c) (lower s')
  end.

(** [s.startswith(p)] *)
Definition startswith (s p : string) : bool := String.prefix p s.

(** [sub in s] *)
Fixpoint contains (sub s : string) : bool :=
  String.prefix sub s ||
  match s with
  | EmptyString => false
  | String _ s' => contains sub s'
  end.

(** [c in s] for a single character *)
Fixpoint mem_char (c : ascii) (s : string) : bool :=
  match s with
  | EmptyString => false
  | String d s' => Ascii.eqb c d || mem_char c s'
  end.

(** [sep.join(l)] *)
Fixpoint join (sep : string) (l : list string) : string :=
  match l with
  | [] => ""
  | [x] => x
  | x :: l' => x +:+ sep +:+ join sep l'
  end.

(** [str(n)] for an [int] *)
Definition str_of_int (n : Z) : string :=
  NilZero.string_of_int (Z.to_int n).

End PyStr.

(* ===================================================================== *)
(** ** Python values that end up in dictionaries *)
(* ===================================================================== *)

Inductive pyval :=
| VNone
| VBool (b : bool)
| VInt (n : Z)
| VFloat (q : Q)
| VStr (s : string).

(** Truth value testing, as [if v:] and [not v] do. *)
Definition truthy (v : pyval) : bool :=
  match v with
  | VNone => false
  | VBool b => b
  | VInt n => negb (n =? 0)
  | VFloat q => negb (Qeq_bool q 0)
  | VStr s => negb (String.eqb s "")
  end.

(** An [Optional[str]] attribute as a value: [None] or the string. *)
Definition of_optional_str (o : option string) : pyval :=
  match o with
  | None => VNone
  | Some s => VStr s
  end.

(** [a and b] *)
Definition py_and (a b : pyval) : pyval := if truthy a then b else a.

(* ===================================================================== *)
(** ** [src/types/errors.py] *)
(* ===================================================================== *)

Module Errors.

(** The exceptions that can travel through the service.  The first five
    are the subclasses of [VisionServerError], with the arguments of
    their [__init__]; [ValueError] is the built-in; [HTTPError] stands
    for [httpx.HTTPError] and its subclasses; [OSError] for the built-in
    and its subclasses ([PermissionError], [IsADirectoryError], the
    built-in [FileNotFoundError]); [OtherException] is any other
    subclass of [Exception]. *)
Inductive exn :=
| FileNotFoundError (message : string) (file_path : option string)
| ValidationError (message : string) (field : option string) (value : option pyval)
| NetworkError (message : string) (url : option string) (status_code : option Z)
| ApiError (message : string) (status_code : option Z)
| ConfigurationError (message : string) (config_key : option string)
                     (config_value : option pyval)
| ValueError (message : string)
| HTTPError (message : string)
| OSError (message : string)
| OtherException (message : string).

(** [str(e)] *)
Definition str (e : exn) : string :=
  match e with
  | FileNotFoundError m _ | ValidationError m _ _ | NetworkError m _ _
  | ApiError m _ | ConfigurationError m _ _
  | ValueError m | HTTPError m | OSError m | OtherException m => m
  end.

(** [e.error_code], for the instances of [VisionServerError] *)
Definition error_code (e : exn) : option string :=
  match e with
  | FileNotFoundError _ _ => Some "FILE_NOT_FOUND"
  | ValidationError _ _ _ => Some "VALIDATION_ERROR"
  | NetworkError _ _ _ => Some "NETWORK_ERROR"
  | ApiError _ _ => Some "API_ERROR"
  | ConfigurationError _ _ _ => Some "CONFIGURATION_ERROR"
  | ValueError _ | HTTPError _ | OSError _ | OtherException _ => None
  end.

(** [isinstance(e, C)] for the classes named in [except] clauses *)
Definition is_HTTPError (e : exn) : bool :=
  match e with HTTPError _ => true | _ => false end.

Definition is_Exception (e : exn) : bool := true.

Definition is_FileNotFoundError (e : exn) : bool :=
  match e with FileNotFoundError _ _ => true | _ => false end.

Definition is_ValidationError (e : exn) : bool :=
  match e with ValidationError _ _ _ => true | _ => false end.

Definition is_NetworkError (e : exn) : bool :=
  match e with NetworkError _ _ _ => true | _ => false end.


Definition is_ValueError (e : exn) : bool :=
  match e with ValueError _ => true | _ => false end.

Inductive result (A : Type) :=
| Ok (a : A)
| Err (e : exn).
Arguments Ok {A} a.
Arguments Err {A} e.

End Errors.
Export Errors.

(* ===================================================================== *)
(** ** [src/config/settings.py] *)
(* ===================================================================== *)

Module Config.

(** [Literal["stdio", "http"]] *)
Inductive Transport := STDIO | HTTP.

(** [Literal["ZAI", "ZHIPU", "AUTO"]] *)
Inductive Platform := ZAI | ZHIPU | AUTO.

Definition Platform_eqb (a b : Platform) : bool :=
  match a, b with
  | ZAI, ZAI | ZHIPU, ZHIPU | AUTO, AUTO => true
  | _, _ => false
  end.

(** The fields of [class Settings], in source order. *)
Record Settings := mkSettings {
  server_name : string;
  server_version : string;
  transport : Transport;
  host : string;
  port : Z;
  debug : bool;
  log_level : string;
  api_key : option string;
  base_url : string;
  platform_mode : Platform;
  vision_model : string;
  temperature : Q;
  top_p : Q;
  max_tokens : Z;
  timeout_seconds : Z;
  retry_count : Z;
  retry_delay_seconds : Q;
  max_image_size_mb : Z;
  max_video_size_mb : Z;
  rate_limit : Z;
  fastmcp_settings : gmap string pyval
}.

(** The [default=] of every [Field]; the API key and the base URL are
    the two the properties below vary. *)
Definition defaults (key : option string) (url : string) (mode : Platform) : Settings :=
  {| server_name := "zai-mcp-server";
     server_version := "2.0.0";
     transport := STDIO;
     host := "0.0.0.0";
     port := 8000;
     debug := false;
     log_level := "INFO";
     api_key := key;
     base_url := url;
     platform_mode := mode;
     vision_model := "glm-4.5v";
     temperature := 8 # 10;
     top_p := 6 # 10;
     max_tokens := 16384;
     timeout_seconds := 300;
     retry_count := 2;
     retry_delay_seconds := 1;
     max_image_size_mb := 5;
     max_video_size_mb := 8;
     rate_limit := 50;
     fastmcp_settings := ∅ |}.

Definition default_base_url : string := "https://open.bigmodel.cn/api/paas/v4/".
Definition ZAI_base_url : string := "https://api.z.ai/api/paas/v4/".
Definition ZHIPU_base_url : string := "https://open.bigmodel.cn/api/paas/v4/".

(** Attribute assignments [self.f = v]. *)
Definition set_platform_mode (self : Settings) (v : Platform) : Settings :=
  mkSettings (server_name self) (server_version self) (transport self)
    (host self) (port self) (debug self) (log_level self) (api_key self)
    (base_url self) v (vision_model self) (temperature self) (top_p self)
    (max_tokens self) (timeout_seconds self) (retry_count self)
    (retry_delay_seconds self) (max_image_size_mb self)
    (max_video_size_mb self) (rate_limit self) (fastmcp_settings self).

Definition set_base_url (self : Settings) (v : string) : Settings :=
  mkSettings (server_name self) (server_version self) (transport self)
    (host self) (port self) (debug self) (log_level self) (api_key self)
    v (platform_mode self) (vision_model self) (temperature self) (top_p self)
    (max_tokens self) (timeout_seconds self) (retry_count self)
    (retry_delay_seconds self) (max_image_size_mb self)
    (max_video_size_mb self) (rate_limit self) (fastmcp_settings self).

Definition set_fastmcp_settings (self : Settings) (v : gmap string pyval) : Settings :=
  mkSettings (server_name self) (server_version self) (transport self)
    (host self) (port self) (debug self) (log_level self) (api_key self)
    (base_url self) (platform_mode self) (vision_model self)
    (temperature self) (top_p self)
    (max_tokens self) (timeout_seconds self) (retry_count self)
    (retry_delay_seconds self) (max_image_size_mb self)
    (max_video_size_mb self) (rate_limit self) v.

(** [_detect_platform]: the platform guessed from the API key. *)
Definition _detect_platform (self : Settings) : Platform :=
  match api_key self with
  | None => ZHIPU
  | Some key =>
      if negb (truthy (VStr key)) then ZHIPU
      else if PyStr.contains "zhipu" (PyStr.lower key)
              || PyStr.contains "glm" (PyStr.lower key)
      then ZHIPU
      else ZAI
  end.

(** [__post_init__]: the statements run on [self] in order; the first
    component is [self] as the assignments executed so far left it, the
    second says whether the method returned or raised. *)
Definition __post_init__ (self : Settings) : Settings * result unit :=
  (* Detect platform if auto *)
  let self :=
    if Platform_eqb (platform_mode self) AUTO
    then set_platform_mode self (_detect_platform self)
    else self in
  (* Adjust base URL based on platform *)
  let self :=
    if Platform_eqb (platform_mode self) ZAI
    then set_base_url self "https://api.z.ai/api/paas/v4/"
    else if Platform_eqb (platform_mode self) ZHIPU
    then set_base_url self "https://open.bigmodel.cn/api/paas/v4/"
    else self in
  (* Validate API key *)
  if negb (truthy (of_optional_str (api_key self)))
  then (self, Err (ValueError "Z_AI_API_KEY environment variable is required"))
  else
    (* Configure FastMCP settings *)
    let self :=
      set_fastmcp_settings self
        {[ "log_level" := VStr (log_level self);
           "timeout" := VInt (timeout_seconds self);
           "max_concurrent_requests" := VInt (rate_limit self) ]} in
    (self, Ok tt).

(** [s.rstrip(c)] for a single character [c] *)
Fixpoint rstrip (c : ascii) (s : string) : string :=
  match s with
  | EmptyString => EmptyString
  | String d s' =>
      match rstrip c s' with
      | EmptyString => if Ascii.eqb d c then EmptyString else String d EmptyString
      | r => String d r
      end
  end.

(** The [api_endpoint] property. *)
Definition api_endpoint (self : Settings) : string :=
  rstrip "/" (base_url self) +:+ "/chat/completions".

(** The bounds the [Field] declarations put on the numeric fields
    ([ge=] and [le=]). *)
Definition within_bounds (s : Settings) : Prop :=
  (0 <= temperature s <= 2)%Q
  ∧ (0 <= top_p s <= 1)%Q
  ∧ 1 <= max_tokens s <= 32768
  ∧ 1 <= timeout_seconds s <= 3600
  ∧ 0 <= retry_count s <= 5
  ∧ (1 # 10 <= retry_delay_seconds s <= 60)%Q
  ∧ 1 <= max_image_size_mb s <= 100
  ∧ 1 <= max_video_size_mb s <= 500
  ∧ 1 <= rate_limit s <= 1000.

Definition Qbetween (lo x hi : Q) : bool := Qle_bool lo x && Qle_bool x hi.

Definition Zbetween (lo x hi : Z) : bool := (lo <=? x) && (x <=? hi).

(** The same bounds, as the check made on the values read. *)
Definition fields_valid (s : Settings) : bool :=
  Qbetween 0 (temperature s) 2
  && Qbetween 0 (top_p s) 1
  && Zbetween 1 (max_tokens s) 32768
  && Zbetween 1 (timeout_seconds s) 3600
  && Zbetween 0 (retry_count s) 5
  && Qbetween (1 # 10) (retry_delay_seconds s) 60
  && Zbetween 1 (max_image_size_mb s) 100
  && Zbetween 1 (max_video_size_mb s) 500
  && Zbetween 1 (rate_limit s) 1000.

(** [Settings()]: the settings base class reads the field values [raw]
    from the environment, the env-file and the defaults, checks each
    against the bounds of its [Field] declaration, and raises its
    validation error (a [ValueError]; its text is not modelled) when one
    is outside.  The instance returned holds the values read: nothing
    in the class or in its base calls [__post_init__]. *)
Definition load (raw : Settings) : result Settings :=
  if fields_valid raw
  then Ok raw
  else Err (ValueError "validation error for Settings").

(** [get_settings] under [lru_cache]: [cache] is the instance an earlier
    call stored, if any, and [env] the field values a new [Settings()]
    would read.  A call that raises stores nothing. *)
Definition get_settings (cache : option Settings) (env : Settings) : option Settings * result Settings :=
  match cache with
  | Some s => (cache, Ok s)
  | None =>
      match load env with
      | Ok s => (Some s, Ok s)
      | Err e => (None, Err e)
      end
  end.

End Config.

(* ===================================================================== *)
(** ** The world the service runs in, and computations over it *)
(* ===================================================================== *)

Module Sys.

(** What [urlparse] returns, restricted to the attributes the service
    reads. *)
Record ParseResult := mkParseResult { scheme : string; netloc : string }.

(** An HTTP response: status code and header fields in arrival order. *)
Record Response := mkResponse {
  status_code : Z;
  headers : list (string * string)
}.

(** What a path resolves to: a regular file with its bytes, or anything
    else (directory, device, socket) with the size [stat] reports. *)
Inductive node :=
| RegularFile (content : list byte)
| OtherNode (st_size : Z).

Definition node_size (n : node) : Z :=
  match n with
  | RegularFile content => Z.of_nat (length content)
  | OtherNode sz => sz
  end.

(** Everything outside the repository that the service consults.
    - [urlparse]: [urllib.parse.urlparse], which may raise.
    - [path_suffix]: [Path(p).suffix].
    - [fs]: what path [p] resolves to, if anything.
    - [probe_error]: for a path that does not resolve, the [OSError]
      that [stat] fails with when the reason is not a missing component
      (a name that is too long, a directory that may not be searched);
      [Path.exists] and [Path.is_file] raise it again.
    - [read_error]: for a regular file, the [OSError] that opening it
      for reading raises (permission denied), if any.
    - [http_head]: the outcome of a HEAD request, a response or an
      exception (transport failure, time-out, invalid URL).
    - [status_message]: the text of the error [raise_for_status] raises.
    - [format_2f]: [f"{x:.2f}"].
    - [iter_set]: the order in which a [set] of strings is iterated. *)
Record World := mkWorld {
  urlparse : string → result ParseResult;
  path_suffix : string → string;
  fs : string → option node;
  probe_error : string → option exn;
  read_error : string → option exn;
  http_head : string → result Response;
  status_message : string → Response → string;
  format_2f : Q → string;
  iter_set : gset string → list string
}.

(** What a computation did to the outside. *)
Inductive event :=
| HttpHead (url : string) (timeout : Q)
| PathExists (p : string)
| PathIsFile (p : string)
| PathStat (p : string)
| FileRead (p : string).

(** A computation: the events it caused, and its value or the exception
    it raised. *)
Definition IO (A : Type) : Type := list event * result A.

Definition ret {A} (a : A) : IO A := ([], Ok a).

Definition raise {A} (e : exn) : IO A := ([], Err e).

Definition lift {A} (r : result A) : IO A := ([], r).

Definition bind {A B} (m : IO A) (f : A → IO B) : IO B :=
  match m with
  | (t, Ok a) => let (t', r) := f a in ((t ++ t')%list, r)
  | (t, Err e) => (t, Err e)
  end.

#[global] Instance IO_ret : MRet IO := @ret.
#[global] Instance IO_bind : MBind IO := λ A B f m, bind m f.

(** [if c: raise e] *)
Definition raise_if (c : bool) (e : exn) : IO unit :=
  if c then raise e else ret tt.

(** One [except C as e: ...] clause: the class test and the handler. *)
Definition clause (A : Type) : Type := (exn → bool) * (exn → IO A).

Fixpoint select {A} (hs : list (clause A)) (e : exn) : option (exn → IO A) :=
  match hs with
  | [] => None
  | (test, h) :: hs' => if test e then Some h else select hs' e
  end.

(** [try: body  except ...]: the first clause whose class matches runs;
    with none the exception propagates. *)
Definition try_except {A} (body : IO A) (hs : list (clause A)) : IO A :=
  match body with
  | (t, Ok a) => (t, Ok a)
  | (t, Err e) =>
      match select hs e with
      | Some h => let (t', r) := h e in ((t ++ t')%list, r)
      | None => (t, Err e)
      end
  end.

Definition trace {A} (m : IO A) : list event := fst m.
Definition outcome {A} (m : IO A) : result A := snd m.

End Sys.
Export Sys.

(* ===================================================================== *)
(** ** [base64]: the standard alphabet with padding (RFC 4648) *)
(* ===================================================================== *)

Module Base64.

(** Six bits, most significant first. *)
Definition sextet : Type := bool * bool * bool * bool * bool * bool.

Definition alphabet : string :=
  "ABCDEFGHIJKLMNOPQRSTUVWXYZabcdefghijklmnopqrstuvwxyz0123456789+/".

Definition pad : ascii := "="%char.

Definition bit (b : bool) (w : nat) : nat := if b then w else 0%nat.

Definition sextet_index (s : sextet) : nat :=
  let '(b5, b4, b3, b2, b1, b0) := s in
  (bit b5 32 + bit b4 16 + bit b3 8 + bit b2 4 + bit b1 2 + bit b0 1)%nat.

Definition index_sextet (n : nat) : sextet :=
  (Nat.testbit n 5, Nat.testbit n 4, Nat.testbit n 3,
   Nat.testbit n 2, Nat.testbit n 1, Nat.testbit n 0).

Definition sextet_char (s : sextet) : ascii :=
  match String.get (sextet_index s) alphabet with
  | Some c => c
  | None => pad
  end.

Fixpoint index_of (c : ascii) (s : string) : option nat :=
  match s with
  | EmptyString => None
  | String d s' =>
      if Ascii.eqb c d then Some 0%nat else S <$> index_of c s'
  end.

Definition char_sextet (c : ascii) : option sextet :=
  index_sextet <$> index_of c alphabet.

Definition enc (s : sextet) : byte := byte_of_ascii (sextet_char s).

(** [base64.b64encode(data)] *)
Fixpoint b64encode (data : list byte) : list byte :=
  match data with
  | [] => []
  | [a] =>
      let '(a0, (a1, (a2, (a3, (a4, (a5, (a6, a7))))))) := Byte.to_bits a in
      [enc (a7, a6, a5, a4, a3, a2);
       enc (a1, a0, false, false, false, false);
       byte_of_ascii pad; byte_of_ascii pad]
  | [a; b] =>
      let '(a0, (a1, (a2, (a3, (a4, (a5, (a6, a7))))))) := Byte.to_bits a in
      let '(b0, (b1, (b2, (b3, (b4, (b5, (b6, b7))))))) := Byte.to_bits b in
      [enc (a7, a6, a5, a4, a3, a2);
       enc (a1, a0, b7, b6, b5, b4);
       enc (b3, b2, b1, b0, false, false);
       byte_of_ascii pad]
  | a :: b :: c :: rest =>
      let '(a0, (a1, (a2, (a3, (a4, (a5, (a6, a7))))))) := Byte.to_bits a in
      let '(b0, (b1, (b2, (b3, (b4, (b5, (b6, b7))))))) := Byte.to_bits b in
      let '(c0, (c1, (c2, (c3, (c4, (c5, (c6, c7))))))) := Byte.to_bits c in
      enc (a7, a6, a5, a4, a3, a2)
      :: enc (a1, a0, b7, b6, b5, b4)
      :: enc (b3, b2, b1, b0, c7, c6)
      :: enc (c5, c4, c3, c2, c1, c0)
      :: b64encode rest
  end.

(** [b.decode('utf-8')] on the encoder's output, which is ASCII: every
    byte is the character with the same code. *)
Definition decode_utf8 (b : list byte) : string := string_of_list_byte b.

(** The bytes three, two or one group of sextets stand for. *)
Definition first_byte (s1 s2 : sextet) : byte :=
  let '(x5, x4, x3, x2, x1, x0) := s1 in
  let '(y5, y4, _, _, _, _) := s2 in
  Byte.of_bits (y4, (y5, (x0, (x1, (x2, (x3, (x4, x5))))))).

Definition second_byte (s2 s3 : sextet) : byte :=
  let '(_, _, y3, y2, y1, y0) := s2 in
  let '(z5, z4, z3, z2, _, _) := s3 in
  Byte.of_bits (z2, (z3, (z4, (z5, (y0, (y1, (y2, y3))))))).

Definition third_byte (s3 s4 : sextet) : byte :=
  let '(_, _, _, _, z1, z0) := s3 in
  let '(w5, w4, w3, w2, w1, w0) := s4 in
  Byte.of_bits (w0, (w1, (w2, (w3, (w4, (w5, (z0, z1))))))).

(** Decoding of a padded base64 string: groups of four characters, the
    last of which may end in one or two pad characters; anything else is
    rejected. *)
Fixpoint b64decode (s : string) : option (list byte) :=
  match s with
  | EmptyString => Some []
  | String c1 (String c2 (String c3 (String c4 rest))) =>
      if Ascii.eqb c4 pad then
        match rest with
        | EmptyString =>
            if Ascii.eqb c3 pad then
              s1 ← char_sextet c1;
              s2 ← char_sextet c2;
              Some [first_byte s1 s2]
            else
              s1 ← char_sextet c1;
              s2 ← char_sextet c2;
              s3 ← char_sextet c3;
              Some [first_byte s1 s2; second_byte s2 s3]
        | _ => None
        end
      else
        s1 ← char_sextet c1;
        s2 ← char_sextet c2;
        s3 ← char_sextet c3;
        s4 ← char_sextet c4;
        tl ← b64decode rest;
        Some (first_byte s1 s2 :: second_byte s2 s3 :: third_byte s3 s4 :: tl)
  | _ => None
  end.

End Base64.

(* ===================================================================== *)
(** ** [src/services/file_service.py] *)
(* ===================================================================== *)

Module FileSvc.

Import Config.

(** The attributes [__init__] sets. *)
Record FileService := mkFileService {
  settings : Settings;
  supported_image_formats : gset string;
  supported_video_formats : gset string
}.

(** [__init__], given what [get_settings()] returned. *)
Definition __init__ (cfg : Settings) : FileService :=
  {| settings := cfg;
     supported_image_formats := {[ ".png"; ".jpg"; ".jpeg" ]};
     supported_video_formats := {[ ".mp4"; ".mov"; ".avi"; ".webm"; ".m4v" ]} |}.

(** [x > y] on numbers, [x] a float and [y] an integer.  The quotient
    [st_size / (1024 * 1024)] is kept exact: binary64 represents it
    exactly for sizes below [2^53], and from there on the rounded
    quotient is at least [2^33], more than any ceiling the settings
    allow. *)
Definition Qgt_bool (x y : Q) : bool := negb (Qle_bool x y).

(** The time-out every [httpx.AsyncClient] is built with. *)
Definition client_timeout : Q := 10.

(** [Headers.get(key, default)]: field names compare case-insensitively
    and the values of a repeated field are joined with a comma. *)
Definition headers_get (r : Response) (key : string) : option string :=
  match filter (λ kv, PyStr.lower kv.1 = PyStr.lower key) (headers r) with
  | [] => None
  | kvs => Some (PyStr.join ", " (snd <$> kvs))
  end.

(** [response.is_success] *)
Definition is_success (r : Response) : bool :=
  (200 <=? status_code r) && (status_code r <=? 299).

Section Service.

Variable W : World.
Variable self : FileService.

(** *** Primitive operations on the world *)

(** [path.exists()]: [stat] succeeds, or fails for a missing component,
    or fails otherwise and the error is raised again. *)
Definition path_exists (p : string) : IO bool :=
  ([PathExists p],
   match fs W p, probe_error W p with
   | Some _, _ => Ok true
   | None, None => Ok false
   | None, Some e => Err e
   end).

(** [path.is_file()] *)
Definition path_is_file (p : string) : IO bool :=
  ([PathIsFile p],
   match fs W p, probe_error W p with
   | Some (RegularFile _), _ => Ok true
   | Some (OtherNode _), _ => Ok false
   | None, None => Ok false
   | None, Some e => Err e
   end).

(** [path.stat().st_size] *)
Definition path_stat_size (p : string) : IO Z :=
  ([PathStat p],
   match fs W p with
   | Some n => Ok (node_size n)
   | None =>
       Err (default (OSError "[Errno 2] No such file or directory")
                    (probe_error W p))
   end).

(** [async with aiofiles.open(path, 'rb') as f: await f.read()] *)
Definition read_bytes (p : string) : IO (list byte) :=
  ([FileRead p],
   match fs W p with
   | Some (RegularFile content) =>
       match read_error W p with
       | Some e => Err e
       | None => Ok content
       end
   | Some (OtherNode _) => Err (OSError "[Errno 21] Is a directory")
   | None =>
       Err (default (OSError "[Errno 2] No such file or directory")
                    (probe_error W p))
   end).

(** [await client.head(url)] on a client with the 10 second time-out *)
Definition client_head (url : string) : IO Response :=
  ([HttpHead url client_timeout], http_head W url).

(** [response.raise_for_status()] *)
Definition raise_for_status (url : string) (r : Response) : IO unit :=
  raise_if (negb (is_success r)) (HTTPError (status_message W url r)).

(** *** The methods of [FileService] *)

(** [is_url]: the value of [scheme in (...) and netloc], or [False] when
    parsing raised. *)
Definition is_url (source : string) : result pyval :=
  outcome
    (try_except
       (result ← lift (urlparse W source);
        mret (py_and
                (VBool (bool_decide (scheme result ∈ ["http"; "https"])))
                (VStr (netloc result))))
       [(is_Exception, λ _, mret (VBool false))]).

(** The value [is_url] is tested for in [if self.is_url(...)]. *)
Definition is_url_true (source : string) : bool :=
  match is_url source with
  | Ok v => truthy v
  | Err _ => false
  end.

Definition _validate_image_file (file_path : string) : IO unit :=
  ex ← path_exists file_path;
  raise_if (negb ex)
    (FileNotFoundError ("Image file not found: " +:+ file_path) None);;
  isf ← path_is_file file_path;
  raise_if (negb isf)
    (ValidationError ("Path is not a file: " +:+ file_path) None None);;
  (* Check file size *)
  st_size ← path_stat_size file_path;
  let size_mb := (inject_Z st_size / inject_Z (1024 * 1024))%Q in
  raise_if (Qgt_bool size_mb (inject_Z (max_image_size_mb (settings self))))
    (ValidationError
       ("Image file too large: " +:+ format_2f W size_mb +:+ "MB. "
        +:+ "Maximum allowed: "
        +:+ PyStr.str_of_int (max_image_size_mb (settings self)) +:+ "MB")
       None None);;
  (* Check file format *)
  raise_if
    (negb (bool_decide (PyStr.lower (path_suffix W file_path)
                        ∈ supported_image_formats self)))
    (ValidationError
       ("Unsupported image format: " +:+ path_suffix W file_path +:+ ". "
        +:+ "Supported formats: "
        +:+ PyStr.join ", " (iter_set W (supported_image_formats self)))
       None None).

Definition _validate_video_file (file_path : string) : IO unit :=
  ex ← path_exists file_path;
  raise_if (negb ex)
    (FileNotFoundError ("Video file not found: " +:+ file_path) None);;
  isf ← path_is_file file_path;
  raise_if (negb isf)
    (ValidationError ("Path is not a file: " +:+ file_path) None None);;
  (* Check file size *)
  st_size ← path_stat_size file_path;
  let size_mb := (inject_Z st_size / inject_Z (1024 * 1024))%Q in
  raise_if (Qgt_bool size_mb (inject_Z (max_video_size_mb (settings self))))
    (ValidationError
       ("Video file too large: " +:+ format_2f W size_mb +:+ "MB. "
        +:+ "Maximum allowed: "
        +:+ PyStr.str_of_int (max_video_size_mb (settings self)) +:+ "MB")
       None None);;
  (* Check file format *)
  raise_if
    (negb (bool_decide (PyStr.lower (path_suffix W file_path)
                        ∈ supported_video_formats self)))
    (ValidationError
       ("Unsupported video format: " +:+ path_suffix W file_path +:+ ". "
        +:+ "Supported formats: "
        +:+ PyStr.join ", " (iter_set W (supported_video_formats self)))
       None None).

Definition _validate_image_url (url : string) : IO unit :=
  try_except
    (response ← client_head url;
     raise_for_status url response;;
     (* Check content type *)
     let content_type :=
       PyStr.lower (default "" (headers_get response "content-type")) in
     raise_if (negb (PyStr.startswith content_type "image/"))
       (ValidationError
          ("URL does not point to an image: " +:+ content_type) None None))
    [ (is_HTTPError,
       λ e, raise (NetworkError
                     ("Cannot access image URL: " +:+ str e) None None));
      (is_Exception,
       λ e, raise (NetworkError
                     ("Network error validating image URL: " +:+ str e)
                     None None)) ].

Definition _validate_video_url (url : string) : IO unit :=
  try_except
    (response ← client_head url;
     raise_for_status url response;;
     (* Check content type *)
     let content_type :=
       PyStr.lower (default "" (headers_get response "content-type")) in
     raise_if (negb (PyStr.startswith content_type "video/"))
       (ValidationError
          ("URL does not point to a video: " +:+ content_type) None None))
    [ (is_HTTPError,
       λ e, raise (NetworkError
                     ("Cannot access video URL: " +:+ str e) None None));
      (is_Exception,
       λ e, raise (NetworkError
                     ("Network error validating video URL: " +:+ str e)
                     None None)) ].

Definition validate_image_source (image_source : string) : IO unit :=
  u ← lift (is_url image_source);
  if truthy u
  then _validate_image_url image_source
  else _validate_image_file image_source.

Definition validate_video_source (video_source : string) : IO unit :=
  u ← lift (is_url video_source);
  if truthy u
  then _validate_video_url video_source
  else _validate_video_file video_source.

Definition _get_mime_type (extension : string) (is_video : bool) : string :=
  let extension := PyStr.lower extension in
  let mime_types : gmap string string :=
    if is_video then
      {[ ".mp4" := "video/mp4";
         ".avi" := "video/x-msvideo";
         ".mov" := "video/quicktime";
         ".webm" := "video/webm";
         ".m4v" := "video/x-m4v" ]}
    else
      {[ ".png" := "image/png";
         ".jpg" := "image/jpeg";
         ".jpeg" := "image/jpeg" ]} in
  default (if negb is_video then "image/png" else "video/mp4")
          (mime_types !! extension).

Definition encode_image_to_base64 (image_source : string) : IO string :=
  u ← lift (is_url image_source);
  if truthy u then
    (* For URLs, return the URL directly *)
    mret image_source
  else
    (* For local files, encode to base64 *)
    _validate_image_file image_source;;
    image_data ← read_bytes image_source;
    (* Get MIME type *)
    let mime_type := _get_mime_type (path_suffix W image_source) false in
    (* Encode to base64 *)
    let base64_data := Base64.decode_utf8 (Base64.b64encode image_data) in
    mret ("data:" +:+ mime_type +:+ ";base64," +:+ base64_data).

Definition encode_video_to_base64 (video_source : string) : IO string :=
  u ← lift (is_url video_source);
  if truthy u then
    (* For URLs, return the URL directly *)
    mret video_source
  else
    (* For local files, encode to base64 *)
    _validate_video_file video_source;;
    video_data ← read_bytes video_source;
    (* Get MIME type *)
    let mime_type := _get_mime_type (path_suffix W video_source) true in
    (* Encode to base64 *)
    let base64_data := Base64.decode_utf8 (Base64.b64encode video_data) in
    mret ("data:" +:+ mime_type +:+ ";base64," +:+ base64_data).

Definition get_file_info (file_source : string) : IO (gmap string pyval) :=
  u ← lift (is_url file_source);
  if truthy u then
    try_except
      (response ← client_head file_source;
       raise_for_status file_source response;;
       mret ({[ "source" := VStr file_source;
                "type" := VStr "url";
                "size" := VNone;
                "content_type" :=
                  of_optional_str (headers_get response "content-type");
                "accessible" := VBool true ]} : gmap string pyval))
      [ (is_Exception,
         λ e, mret ({[ "source" := VStr file_source;
                       "type" := VStr "url";
                       "size" := VNone;
                       "content_type" := VNone;
                       "accessible" := VBool false;
                       "error" := VStr (str e) ]} : gmap string pyval)) ]
  else
    ex ← path_exists file_source;
    if negb ex then
      mret ({[ "source" := VStr file_source;
               "type" := VStr "file";
               "size" := VNone;
               "content_type" := VNone;
               "accessible" := VBool false;
               "error" := VStr "File not found" ]} : gmap string pyval)
    else
      st_size ← path_stat_size file_source;
      let suffix := path_suffix W file_source in
      let mime_type :=
        _get_mime_type suffix
          (bool_decide (suffix ∈ supported_video_formats self)) in
      mret ({[ "source" := VStr file_source;
               "type" := VStr "file";
               "size" := VInt st_size;
               "size_mb" := VFloat (inject_Z st_size / inject_Z (1024 * 1024));
               "content_type" := VStr mime_type;
               "accessible" := VBool true;
               "extension" := VStr suffix ]} : gmap string pyval).

End Service.

End FileSvc.

(* ===================================================================== *)
(** ** Executable versions of the library functions, and a sample world *)
(* ===================================================================== *)

Module Model.

(** *** [urllib.parse.urlsplit], scheme and network location

    The model follows the library on every URL whose network location
    is ASCII and has no bracketed host; the library's checks of a
    bracketed host (an IP literal) and of the NFKC form of a non-ASCII
    location, which make it raise [ValueError] on more inputs, are not
    modelled. *)

Definition is_c0_or_space (c : ascii) : bool := (N_of_ascii c <=? 32)%N.

Fixpoint lstrip_c0 (s : string) : string :=
  match s with
  | EmptyString => EmptyString
  | String c s' => if is_c0_or_space c then lstrip_c0 s' else s
  end.

(** Tab, line feed and carriage return are removed wherever they are. *)
Definition is_unsafe (c : ascii) : bool :=
  let n := N_of_ascii c in ((n =? 9) || (n =? 10) || (n =? 13))%N.

Fixpoint remove_unsafe (s : string) : string :=
  match s with
  | EmptyString => EmptyString
  | String c s' =>
      if is_unsafe c then remove_unsafe s' else String c (remove_unsafe s')
  end.

Definition is_alpha (c : ascii) : bool := PyStr.is_upper c || PyStr.is_lower c.

Definition is_scheme_char (c : ascii) : bool :=
  is_alpha c || PyStr.is_digit c || PyStr.mem_char c "+-.".

Fixpoint all_chars (p : ascii → bool) (s : string) : bool :=
  match s with
  | EmptyString => true
  | String c s' => p c && all_chars p s'
  end.

(** [s.partition(c)] when [c] occurs: the text before and after its
    first occurrence. *)
Fixpoint split_first (c : ascii) (s : string) : option (string * string) :=
  match s with
  | EmptyString => None
  | String d s' =>
      if Ascii.eqb d c then Some (EmptyString, s')
      else match split_first c s' with
           | Some (a, b) => Some (String d a, b)
           | None => None
           end
  end.

(** The text up to the first of [/], [?] and [#]. *)
Fixpoint take_netloc (s : string) : string :=
  match s with
  | EmptyString => EmptyString
  | String c s' =>
      if PyStr.mem_char c "/?#" then EmptyString else String c (take_netloc s')
  end.

(** The scheme, lower-cased, and what follows its colon; no scheme when
    the text before the first colon is empty, does not start with a
    letter or holds a character no scheme may hold. *)
Definition split_scheme (url : string) : string * string :=
  match split_first ":" url with
  | Some (String c0 before, after) =>
      if is_alpha c0 && all_chars is_scheme_char (String c0 before)
      then (PyStr.lower (String c0 before), after)
      else (EmptyString, url)
  | _ => (EmptyString, url)
  end.

Definition urlparse (url : string) : result ParseResult :=
  let url := remove_unsafe (lstrip_c0 url) in
  let '(scheme, url) := split_scheme url in
  match url with
  | String "/" (String "/" rest) =>
      let netloc := take_netloc rest in
      if xorb (PyStr.mem_char "[" netloc) (PyStr.mem_char "]" netloc)
      then Err (ValueError "Invalid IPv6 URL")
      else Ok (mkParseResult scheme netloc)
  | _ => Ok (mkParseResult scheme EmptyString)
  end.

(** *** [pathlib.PurePosixPath.suffix] *)

Fixpoint split_on (c : ascii) (s : string) : list string :=
  match s with
  | EmptyString => [EmptyString]
  | String d s' =>
      if Ascii.eqb d c then EmptyString :: split_on c s'
      else match split_on c s' with
           | x :: l => String d x :: l
           | [] => [String d EmptyString]
           end
  end.

(** The final component, empty ones and [.] aside. *)
Definition path_name (p : string) : string :=
  List.last
    (List.filter (λ x, negb (String.eqb x "" || String.eqb x "."))
                 (split_on "/" p))
    EmptyString.

(** [name[name.rfind('.'):]], when there is a dot *)
Fixpoint from_last_dot (name : string) : option string :=
  match name with
  | EmptyString => None
  | String c name' =>
      match from_last_dot name' with
      | Some t => Some t
      | None => if Ascii.eqb c "." then Some name else None
      end
  end.

Definition path_suffix (p : string) : string :=
  let name := path_name p in
  match from_last_dot name with
  | Some t =>
      if (1 <? String.length t)%nat && (String.length t <? String.length name)%nat
      then t else EmptyString
  | None => EmptyString
  end.

(** *** [f"{x:.2f}"] for a non-negative [x] that binary64 holds
    exactly, as a size in MB is: two decimals, ties to even *)

Definition two_digits (n : Z) : string :=
  (if n <? 10 then "0" else "") +:+ PyStr.str_of_int n.

Definition format_2f (x : Q) : string :=
  let num := 100 * Qnum x in
  let den := Zpos (Qden x) in
  let fl := num / den in
  let rem := num mod den in
  let r := if (den <? 2 * rem) || ((2 * rem =? den) && Z.odd fl)
           then fl + 1 else fl in
  PyStr.str_of_int (r / 100) +:+ "." +:+ two_digits (r mod 100).

(** *** A sample world *)

(** A file name of 256 characters, one more than a directory entry may
    have. *)
Definition long_name : string := string_of_list_ascii (repeat "a"%char 256).

(** [stat] on a path with a component of more than 255 bytes fails with
    [ENAMETOOLONG]. *)
Definition name_too_long (p : string) : bool :=
  existsb (λ name, (255 <? String.length name)%nat) (split_on "/" p).

Definition sample_probe_error (p : string) : option exn :=
  if name_too_long p
  then Some (OSError ("[Errno 36] File name too long: '" +:+ p +:+ "'"))
  else None.

(** [locked.png] belongs to another user and is not readable. *)
Definition sample_read_error (p : string) : option exn :=
  if String.eqb p "locked.png"
  then Some (OSError "[Errno 13] Permission denied: 'locked.png'")
  else None.

Definition bytes_of (s : string) : list byte := list_byte_of_string s.

Definition sample_fs : gmap string node :=
  {[ "photo.png" := RegularFile (bytes_of "Man");
     "movie.MP4" := RegularFile (bytes_of "clip");
     "clip.mp4" := RegularFile (bytes_of "clip");
     "notes.txt" := RegularFile (bytes_of "hello");
     "locked.png" := RegularFile (bytes_of "Man");
     "full.png" := RegularFile (repeat "000"%byte (N.to_nat 1048576));
     "over.png" := RegularFile (repeat "000"%byte (N.to_nat 1048577));
     "albums" := OtherNode 4096 ]}.

Definition sample_http : gmap string Response :=
  {[ "https://example.com/a.png" :=
       mkResponse 200 [("Content-Type", "image/png")];
     "https://example.com/a.mp4" :=
       mkResponse 200 [("content-type", "video/mp4")];
     "https://example.com/page" :=
       mkResponse 200 [("Content-Type", "text/html")];
     "https://example.com/gone" :=
       mkResponse 404 [("Content-Type", "image/png")] ]}.

Definition model_world : World :=
  {| Sys.urlparse := urlparse;
     Sys.path_suffix := path_suffix;
     fs := λ p, sample_fs !! p;
     probe_error := sample_probe_error;
     read_error := sample_read_error;
     http_head := λ url,
       match sample_http !! url with
       | Some r => Ok r
       | None => Err (HTTPError "All connection attempts failed")
       end;
     status_message := λ url r,
       "HTTP status " +:+ PyStr.str_of_int (status_code r) +:+ " for url " +:+ url;
     Sys.format_2f := format_2f;
     iter_set := elements |}.

(** A service whose image ceiling is 1 MB and video ceiling 8 MB. *)
Definition sample_settings : Config.Settings :=
  Config.mkSettings "zai-mcp-server" "2.0.0" Config.STDIO "0.0.0.0" 8000
    false "INFO" (Some "sk-test") Config.ZAI_base_url Config.ZAI "glm-4.5v"
    (8 # 10) (6 # 10) 16384 300 2 1 1 8 50 ∅.

Definition sample_service : FileSvc.FileService :=
  FileSvc.__init__ sample_settings.

End Model.

(* ===================================================================== *)
(** ** The vocabulary of the specification *)
(* ===================================================================== *)

Module Spec.

Import Config FileSvc.

(** The texts of the two size and format errors. *)
Definition too_large_message (W : World) (what : string) (st_size ceiling : Z) : string :=
  what +:+ " file too large: "
  +:+ Sys.format_2f W (inject_Z st_size / inject_Z (1024 * 1024))
  +:+ "MB. Maximum allowed: " +:+ PyStr.str_of_int ceiling +:+ "MB".

Definition unsupported_message (W : World) (what suffix : string) (formats : gset string) : string :=
  "Unsupported " +:+ what +:+ " format: " +:+ suffix
  +:+ ". Supported formats: " +:+ PyStr.join ", " (iter_set W formats).

(** What the specification says of the validation of a local path [p]
    by [validate], for the media type called [What]/[what], with size
    ceiling [ceiling] (in MB) and supported extensions [formats]: the
    four checks, each reached only when the ones before it passed. *)
Definition checks_in_order (W : World) (validate : string → IO unit) (What what : string) (ceiling : Z) (formats : gset string) (p : string) : Prop :=
  (* existence *)
  (fs W p = None →
   validate p =
   ([PathExists p],
    Err (FileNotFoundError (What +:+ " file not found: " +:+ p) None)))
  (* regular file *)
  ∧ (∀ sz, fs W p = Some (OtherNode sz) →
     validate p =
     ([PathExists p; PathIsFile p],
      Err (ValidationError ("Path is not a file: " +:+ p) None None)))
  ∧ (∀ content, fs W p = Some (RegularFile content) →
     let st_size := Z.of_nat (length content) in
     let size_mb := (inject_Z st_size / inject_Z 1048576)%Q in
     let ext := PyStr.lower (Sys.path_suffix W p) in
     trace (validate p) = [PathExists p; PathIsFile p; PathStat p]
     (* size *)
     ∧ ((inject_Z ceiling < size_mb)%Q →
        outcome (validate p) =
        Err (ValidationError (too_large_message W What st_size ceiling)
                             None None))
     (* extension *)
     ∧ (¬ (inject_Z ceiling < size_mb)%Q → ext ∉ formats →
        outcome (validate p) =
        Err (ValidationError
               (unsupported_message W what (Sys.path_suffix W p) formats)
               None None))
     ∧ (¬ (inject_Z ceiling < size_mb)%Q → ext ∈ formats →
        outcome (validate p) = Ok tt)).

(** The record for a URL whose probe failed with the exception [e]. *)
Definition unreachable_record (source : string) (e : exn) : gmap string pyval :=
  {[ "source" := VStr source;
     "type" := VStr "url";
     "size" := VNone;
     "content_type" := VNone;
     "accessible" := VBool false;
     "error" := VStr (str e) ]}.

(** The endpoint each platform is bound to. *)
Definition fixed_endpoint (platform : Platform) : string :=
  match platform with
  | ZAI => "https://api.z.ai/api/paas/v4/"
  | ZHIPU => "https://open.bigmodel.cn/api/paas/v4/"
  | AUTO => ""
  end.

(** The platform [__post_init__] settles on: the detected one under
    [AUTO], the configured one otherwise. *)
Definition resolved_platform (raw : Settings) : Platform :=
  match platform_mode raw with
  | AUTO => _detect_platform raw
  | p => p
  end.

(** The dictionary handed to the serving layer. *)
Definition serving_projection (s : Settings) : gmap string pyval :=
  {[ "log_level" := VStr (log_level s);
     "timeout" := VInt (timeout_seconds s);
     "max_concurrent_requests" := VInt (rate_limit s) ]}.

(** Successive calls of [get_settings], one per environment of [envs],
    threading the cache: the cache at the end and what each call gave. *)
Fixpoint get_settings_calls (cache : option Settings) (envs : list Settings) : option Settings * list (result Settings) :=
  match envs with
  | [] => (cache, [])
  | env :: envs' =>
      let (cache', r) := get_settings cache env in
      let (cache'', rs) := get_settings_calls cache' envs' in
      (cache'', r :: rs)
  end.

(** The object [__post_init__] leaves when it returns, called on [raw]. *)
Definition post_initialised (raw : Settings) : Settings :=
  mkSettings (server_name raw) (server_version raw) (transport raw)
    (host raw) (port raw) (debug raw) (log_level raw) (api_key raw)
    (fixed_endpoint (resolved_platform raw)) (resolved_platform raw)
    (vision_model raw) (temperature raw) (top_p raw) (max_tokens raw)
    (timeout_seconds raw) (retry_count raw) (retry_delay_seconds raw)
    (max_image_size_mb raw) (max_video_size_mb raw) (rate_limit raw)
    (serving_projection raw).

(** [n] times the character [c]. *)
Fixpoint chars (c : ascii) (n : nat) : string :=
  match n with
  | O => EmptyString
  | S n' => String c (chars c n')
  end.

(** [s.endswith(c)] for a single character *)
Fixpoint ends_in (c : ascii) (s : string) : bool :=
  match s with
  | EmptyString => false
  | String d EmptyString => Ascii.eqb d c
  | String _ s' => ends_in c s'
  end.

(** The content type URL validation looks at: the header, empty when
    absent, lower-cased. *)
Definition content_type_of (r : Response) : string :=
  PyStr.lower (default "" (headers_get r "content-type")).

(** The HEAD request to [url] is answered with a status in 2xx and a
    content type that starts with [prefix]. *)
Definition probe_accepts (W : World) (url prefix : string) : bool :=
  match http_head W url with
  | Ok r => is_success r && PyStr.startswith (content_type_of r) prefix
  | Err _ => false
  end.

(** The HEAD request to [url] is answered with a status in 2xx. *)
Definition probe_succeeds (W : World) (url : string) : bool :=
  match http_head W url with
  | Ok r => is_success r
  | Err _ => false
  end.

(** The [OSError] the probes of a local path [p] raise, if any. *)
Definition probe_raises (W : World) (p : string) : option exn :=
  match fs W p with
  | Some _ => None
  | None => probe_error W p
  end.

(** The three file-system probes validation makes on [p]. *)
Definition is_probe_of (p : string) (ev : event) : Prop :=
  ev = PathExists p ∨ ev = PathIsFile p ∨ ev = PathStat p.

(** The MIME type of each video extension. *)
Definition video_mime (ext : string) : option string :=
  if String.eqb ext ".mp4" then Some "video/mp4"
  else if String.eqb ext ".avi" then Some "video/x-msvideo"
  else if String.eqb ext ".mov" then Some "video/quicktime"
  else if String.eqb ext ".webm" then Some "video/webm"
  else if String.eqb ext ".m4v" then Some "video/x-m4v"
  else None.

(** The characters base64 text is made of. *)
Definition is_base64_char (c : ascii) : bool :=
  PyStr.is_upper c || PyStr.is_lower c || PyStr.is_digit c
  || PyStr.mem_char c "+/=".

End Spec.

(* ===================================================================== *)
(** ** Properties *)
(* ===================================================================== *)

Import Config FileSvc Model Spec.

(** A decidable proposition holds when its decision procedure says so. *)
Ltac by_bool_decide :=
  match goal with
  | |- ?P => apply (bool_decide_eq_true_1 P); vm_compute; reflexivity
  end.

(** *** The executable library models on a few inputs *)

Example urlparse_examples :
  urlparse "https://example.com/a.png" = Ok (mkParseResult "https" "example.com")
  ∧ urlparse "HTTP://Example.com:8080?q=1" = Ok (mkParseResult "http" "Example.com:8080")
  ∧ urlparse "ftp://x/y" = Ok (mkParseResult "ftp" "x")
  ∧ urlparse "not a url" = Ok (mkParseResult "" "")
  ∧ urlparse "http:///only/a/path" = Ok (mkParseResult "http" "")
  ∧ urlparse "C:/Users/me/cat.png" = Ok (mkParseResult "c" "")
  ∧ urlparse "http://[::1/x" = Err (ValueError "Invalid IPv6 URL").
Proof. repeat split; vm_compute; reflexivity. Qed.

Example path_suffix_examples :
  path_suffix <$> ["movie.MP4"; "a/b/c.tar.gz"; ".bashrc"; "dir.d/file"; "pics/a.png/"]
  = [".MP4"; ".gz"; ""; ""; ".png"].
Proof. vm_compute; reflexivity. Qed.

Example b64encode_examples :
  Base64.decode_utf8 ∘ Base64.b64encode ∘ bytes_of <$> [""; "M"; "Ma"; "Man"; "light work."]
  = [""; "TQ=="; "TWE="; "TWFu"; "bGlnaHQgd29yay4="].
Proof. vm_compute; reflexivity. Qed.

Example format_2f_examples :
  format_2f <$> [5%Q; (1 # 8)%Q; (3 # 8)%Q;
                 (inject_Z 1048577 / inject_Z (1024 * 1024))%Q;
                 (inject_Z 7654321 / inject_Z (1024 * 1024))%Q]
  = ["5.00"; "0.12"; "0.38"; "1.00"; "7.30"].
Proof. vm_compute; reflexivity. Qed.

(** *** Classifying a source: [is_url] *)

Section IsUrl.

Variable W : World.

Lemma is_url_parsed source r :
  Sys.urlparse W source = Ok r →
  is_url W source =
    Ok (py_and (VBool (bool_decide (scheme r ∈ ["http"; "https"])))
               (VStr (netloc r))).
Proof. intros Hp. unfold is_url. rewrite Hp. reflexivity. Qed.

Lemma is_url_parse_error source e :
  Sys.urlparse W source = Err e → is_url W source = Ok (VBool false).
Proof. intros Hp. unfold is_url. rewrite Hp. reflexivity. Qed.

Lemma is_url_returns source : ∃ v, is_url W source = Ok v.
Proof.
  destruct (Sys.urlparse W source) as [r|e] eqn:Hp.
  - eexists. apply (is_url_parsed _ _ Hp).
  - eexists. apply (is_url_parse_error _ _ Hp).
Qed.

Lemma scheme_in_tuple (s : string) :
  s ∈ ["http"; "https"] ↔ s = "http" ∨ s = "https".
Proof. rewrite !elem_of_cons, elem_of_nil. tauto. Qed.

Lemma truthy_VStr s : truthy (VStr s) = true ↔ s ≠ "".
Proof.
  simpl. destruct (String.eqb_spec s ""); simpl; split; congruence.
Qed.

Lemma is_url_true_iff source :
  is_url_true W source = true ↔
  ∃ r, Sys.urlparse W source = Ok r
       ∧ (scheme r = "http" ∨ scheme r = "https") ∧ netloc r ≠ "".
Proof.
  unfold is_url_true.
  destruct (Sys.urlparse W source) as [r|e] eqn:Hp.
  - rewrite (is_url_parsed _ _ Hp). unfold py_and.
    destruct (bool_decide_reflect (scheme r ∈ ["http"; "https"])) as [Hin|Hin];
      cbn [truthy]; rewrite scheme_in_tuple in Hin.
    + fold (truthy (VStr (netloc r))). rewrite truthy_VStr. split.
      * intros Hn. exists r. auto.
      * intros (r' & Hr' & _ & Hn). congruence.
    + split; [discriminate|]. intros (r' & Hr' & Hs & _).
      assert (r' = r) by congruence. subst. contradiction.
  - rewrite (is_url_parse_error _ _ Hp). cbn [truthy].
    split; [discriminate|]. intros (r & Hr & _). discriminate.
Qed.

Lemma is_url_truthy source v :
  is_url W source = Ok v → truthy v = is_url_true W source.
Proof. intros H. unfold is_url_true. rewrite H. reflexivity. Qed.

End IsUrl.

(** [is_url] returns a value for every string and never raises; the
    value is true in the sense of [if] exactly when the string parses
    with scheme [http] or [https] and a non-empty network location.
    With the parser of the standard library, ["not a url"] and
    ["ftp://x/y"] are not URLs and ["https://example.com/a.png"] is. *)
Theorem is_url_total_and_exact :
  (∀ (W : World) (source : string),
     ∃ v, is_url W source = Ok v
          ∧ (truthy v = true ↔
             ∃ r, Sys.urlparse W source = Ok r
                  ∧ (scheme r = "http" ∨ scheme r = "https")
                  ∧ netloc r ≠ ""))
  ∧ is_url_true model_world "not a url" = false
  ∧ is_url_true model_world "https://example.com/a.png" = true
  ∧ is_url_true model_world "ftp://x/y" = false.
Proof.
  split.
  - intros W source. destruct (is_url_returns W source) as [v Hv].
    exists v. split; [exact Hv|].
    rewrite (is_url_truthy _ _ _ Hv). apply is_url_true_iff.
  - repeat split; vm_compute; reflexivity.
Qed.

(** C3. What [is_url] returns for a URL is not [True]: for
    ["https://example.com/a.png"] it is the string ["example.com"], the
    second operand of [and]; and for ["http:///only/a/path"], which has
    the scheme and no network location, it is the empty string, not
    [False].  Only for a source without the scheme, such as
    ["ftp://x/y"] and ["not a url"], it is a boolean, [False]. *)
Theorem is_url_returns_a_string_for_a_url :
  is_url model_world "https://example.com/a.png" = Ok (VStr "example.com")
  ∧ is_url model_world "https://example.com/a.png" ≠ Ok (VBool true)
  ∧ is_url model_world "http:///only/a/path" = Ok (VStr "")
  ∧ is_url model_world "http:///only/a/path" ≠ Ok (VBool false)
  ∧ is_url model_world "ftp://x/y" = Ok (VBool false)
  ∧ is_url model_world "not a url" = Ok (VBool false).
Proof.
  repeat split; try (vm_compute; reflexivity);
    intros H; vm_compute in H; discriminate H.
Qed.

(** *** Running the methods *)

Section Run.

Variable W : World.
Variable self : FileService.

Lemma lift_is_url_bind {A} source (k : pyval → IO A) :
  ∃ v, is_url W source = Ok v ∧ truthy v = is_url_true W source
       ∧ (lift (is_url W source) ≫= k) = k v.
Proof.
  destruct (is_url_returns W source) as [v Hv].
  exists v. split; [exact Hv|]. split; [apply (is_url_truthy _ _ _ Hv)|].
  rewrite Hv. unfold mbind, IO_bind, bind, lift.
  destruct (k v) as [t r]. reflexivity.
Qed.

Lemma dispatch {A} source (url_case file_case : IO A) :
  (u ← lift (is_url W source); if truthy u then url_case else file_case)
  = if is_url_true W source then url_case else file_case.
Proof.
  destruct (lift_is_url_bind source
              (λ u, if truthy u then url_case else file_case))
    as (v & Hv & Ht & ->).
  rewrite Ht. reflexivity.
Qed.

Lemma validate_image_source_eq source :
  validate_image_source W self source =
  if is_url_true W source
  then _validate_image_url W source
  else _validate_image_file W self source.
Proof. apply dispatch. Qed.

Lemma validate_video_source_eq source :
  validate_video_source W self source =
  if is_url_true W source
  then _validate_video_url W source
  else _validate_video_file W self source.
Proof. apply dispatch. Qed.

End Run.

(** C4. For a source that [is_url] accepts, both encoders return the
    source itself, and their trace is empty: no request is sent and no
    file is touched. *)
Theorem encode_url_is_identity (W : World) (self : FileService) (source : string) :
  is_url_true W source = true →
  encode_image_to_base64 W self source = ([], Ok source)
  ∧ encode_video_to_base64 W self source = ([], Ok source).
Proof.
  intros Hu. unfold encode_image_to_base64, encode_video_to_base64.
  rewrite !dispatch, Hu. split; reflexivity.
Qed.

Lemma encode_url_is_identity_witness :
  is_url_true model_world "https://example.com/a.png" = true
  ∧ encode_image_to_base64 model_world sample_service "https://example.com/a.png"
    = ([], Ok "https://example.com/a.png")
  ∧ encode_video_to_base64 model_world sample_service "https://example.com/a.png"
    = ([], Ok "https://example.com/a.png").
Proof.
  split; [vm_compute; reflexivity|].
  apply (encode_url_is_identity model_world sample_service
           "https://example.com/a.png").
  vm_compute; reflexivity.
Defined.

(** *** Validating a local file *)

(** The comparison of the size in MB with the ceiling, on integers. *)
Lemma Qgt_bool_lt (x y : Q) : Qgt_bool x y = true ↔ (y < x)%Q.
Proof.
  unfold Qgt_bool. rewrite negb_true_iff.
  destruct (Qle_bool x y) eqn:Hle.
  - apply Qle_bool_iff in Hle. split; [discriminate|].
    intros Hlt. exfalso. exact (Qlt_not_le _ _ Hlt Hle).
  - split; [|reflexivity]. intros _. apply Qnot_le_lt.
    intros Hle'. apply Qle_bool_iff in Hle'. congruence.
Qed.

Lemma size_mb_over_ceiling (st_size ceiling : Z) :
  Qgt_bool (inject_Z st_size / inject_Z (1024 * 1024)) (inject_Z ceiling)
  = (ceiling * 1048576 <? st_size).
Proof.
  apply eq_true_iff_eq. rewrite Qgt_bool_lt, Z.ltb_lt.
  unfold Qlt, Qdiv, Qmult, Qinv, inject_Z. simpl. lia.
Qed.

Section LocalFile.

Variable W : World.
Variable self : FileService.

Lemma _validate_image_file_missing p :
  fs W p = None → probe_error W p = None →
  _validate_image_file W self p =
  ([PathExists p],
   Err (FileNotFoundError ("Image file not found: " +:+ p) None)).
Proof.
  intros Hfs Hpe. unfold _validate_image_file, path_exists. rewrite Hfs, Hpe.
  reflexivity.
Qed.

(** The error of a failed probe leaves the validator as it is. *)
Lemma _validate_image_file_probe_raises p e :
  fs W p = None → probe_error W p = Some e →
  _validate_image_file W self p = ([PathExists p], Err e).
Proof.
  intros Hfs Hpe. unfold _validate_image_file, path_exists. rewrite Hfs, Hpe.
  reflexivity.
Qed.

Lemma _validate_video_file_missing p :
  fs W p = None → probe_error W p = None →
  _validate_video_file W self p =
  ([PathExists p],
   Err (FileNotFoundError ("Video file not found: " +:+ p) None)).
Proof.
  intros Hfs Hpe. unfold _validate_video_file, path_exists. rewrite Hfs, Hpe.
  reflexivity.
Qed.

(** The error of a failed probe leaves the validator as it is. *)
Lemma _validate_video_file_probe_raises p e :
  fs W p = None → probe_error W p = Some e →
  _validate_video_file W self p = ([PathExists p], Err e).
Proof.
  intros Hfs Hpe. unfold _validate_video_file, path_exists. rewrite Hfs, Hpe.
  reflexivity.
Qed.

Lemma _validate_image_file_not_regular p sz :
  fs W p = Some (OtherNode sz) →
  _validate_image_file W self p =
  ([PathExists p; PathIsFile p],
   Err (ValidationError ("Path is not a file: " +:+ p) None None)).
Proof.
  intros Hfs. unfold _validate_image_file, path_exists, path_is_file.
  rewrite Hfs. reflexivity.
Qed.

Lemma _validate_video_file_not_regular p sz :
  fs W p = Some (OtherNode sz) →
  _validate_video_file W self p =
  ([PathExists p; PathIsFile p],
   Err (ValidationError ("Path is not a file: " +:+ p) None None)).
Proof.
  intros Hfs. unfold _validate_video_file, path_exists, path_is_file.
  rewrite Hfs. reflexivity.
Qed.

(** On a regular file the three probes run, then size and format are
    tested in this order. *)
Lemma _validate_image_file_regular p content :
  fs W p = Some (RegularFile content) →
  _validate_image_file W self p =
  ([PathExists p; PathIsFile p; PathStat p],
   let st_size := Z.of_nat (length content) in
   let ceiling := max_image_size_mb (settings self) in
   if ceiling * 1048576 <? st_size
   then Err (ValidationError (too_large_message W "Image" st_size ceiling)
                             None None)
   else if bool_decide (PyStr.lower (Sys.path_suffix W p)
                        ∈ supported_image_formats self)
   then Ok tt
   else Err (ValidationError
               (unsupported_message W "image" (Sys.path_suffix W p)
                                    (supported_image_formats self))
               None None)).
Proof.
  intros Hfs.
  unfold _validate_image_file, path_exists, path_is_file, path_stat_size.
  rewrite Hfs. cbn [node_size].
  unfold mbind, IO_bind, bind, raise_if, raise, ret.
  cbn [bool_decide decide_rel negb].
  rewrite size_mb_over_ceiling.
  destruct (_ <? _); [reflexivity|].
  destruct (bool_decide (PyStr.lower _ ∈ _)); reflexivity.
Qed.

Lemma _validate_video_file_regular p content :
  fs W p = Some (RegularFile content) →
  _validate_video_file W self p =
  ([PathExists p; PathIsFile p; PathStat p],
   let st_size := Z.of_nat (length content) in
   let ceiling := max_video_size_mb (settings self) in
   if ceiling * 1048576 <? st_size
   then Err (ValidationError (too_large_message W "Video" st_size ceiling)
                             None None)
   else if bool_decide (PyStr.lower (Sys.path_suffix W p)
                        ∈ supported_video_formats self)
   then Ok tt
   else Err (ValidationError
               (unsupported_message W "video" (Sys.path_suffix W p)
                                    (supported_video_formats self))
               None None)).
Proof.
  intros Hfs.
  unfold _validate_video_file, path_exists, path_is_file, path_stat_size.
  rewrite Hfs. cbn [node_size].
  unfold mbind, IO_bind, bind, raise_if, raise, ret.
  cbn [bool_decide decide_rel negb].
  rewrite size_mb_over_ceiling.
  destruct (_ <? _); [reflexivity|].
  destruct (bool_decide (PyStr.lower _ ∈ _)); reflexivity.
Qed.

End LocalFile.

Lemma size_mb_lt_ceiling (st_size ceiling : Z) :
  (inject_Z ceiling < inject_Z st_size / inject_Z 1048576)%Q
  ↔ ceiling * 1048576 < st_size.
Proof.
  rewrite <- Z.ltb_lt, <- size_mb_over_ceiling. symmetry. apply Qgt_bool_lt.
Qed.

Lemma regular_checks_in_order (W : World) (m : IO unit) (What what : string) (ceiling : Z) (formats : gset string) (p : string) (content : list byte) :
  m = ([PathExists p; PathIsFile p; PathStat p],
       let st_size := Z.of_nat (length content) in
       if ceiling * 1048576 <? st_size
       then Err (ValidationError (too_large_message W What st_size ceiling)
                                 None None)
       else if bool_decide (PyStr.lower (Sys.path_suffix W p) ∈ formats)
       then Ok tt
       else Err (ValidationError
                   (unsupported_message W what (Sys.path_suffix W p) formats)
                   None None)) →
  let st_size := Z.of_nat (length content) in
  let size_mb := (inject_Z st_size / inject_Z 1048576)%Q in
  let ext := PyStr.lower (Sys.path_suffix W p) in
  trace m = [PathExists p; PathIsFile p; PathStat p]
  ∧ ((inject_Z ceiling < size_mb)%Q →
     outcome m =
     Err (ValidationError (too_large_message W What st_size ceiling) None None))
  ∧ (¬ (inject_Z ceiling < size_mb)%Q → ext ∉ formats →
     outcome m =
     Err (ValidationError
            (unsupported_message W what (Sys.path_suffix W p) formats)
            None None))
  ∧ (¬ (inject_Z ceiling < size_mb)%Q → ext ∈ formats → outcome m = Ok tt).
Proof.
  intros -> st_size size_mb ext. subst size_mb. cbn [trace outcome fst snd].
  rewrite size_mb_lt_ceiling. fold st_size. fold ext.
  split; [reflexivity|].
  destruct (Z.ltb_spec (ceiling * 1048576) st_size) as [Hlt|Hge].
  - split; [reflexivity|]. split; intros Hn; exfalso; apply Hn; exact Hlt.
  - split; [intros Hlt; lia|].
    destruct (bool_decide_reflect (ext ∈ formats)) as [Hin|Hout].
    + split; [intros _ Hn; contradiction | reflexivity].
    + split; [reflexivity | intros _ Hin; contradiction].
Qed.

(** C2, as the specification has it, fails.  The name of 256 letters
    is a local path that does not exist, and validating it does not end
    in [FileNotFoundError]: the existence probe itself fails, the name
    being too long, and its [OSError] reaches the caller. *)
Lemma local_validation_probe_error_escapes :
  is_url_true model_world long_name = false
  ∧ fs model_world long_name = None
  ∧ (∃ m, validate_image_source model_world sample_service long_name
          = ([PathExists long_name], Err (OSError m)))
  ∧ (∃ m, validate_video_source model_world sample_service long_name
          = ([PathExists long_name], Err (OSError m)))
  ∧ ¬ (∃ m f, outcome (validate_image_source model_world sample_service
                         long_name)
              = Err (FileNotFoundError m f)).
Proof.
  split; [vm_compute; reflexivity|]. split; [vm_compute; reflexivity|].
  split; [eexists; vm_compute; reflexivity|].
  split; [eexists; vm_compute; reflexivity|].
  intros (m & f & H). vm_compute in H. discriminate H.
Qed.

(** C2, amended. A local path whose probes do not fail with an
    [OSError] is validated by four checks in the order existence,
    regular file, size, extension, for images and for videos alike: a
    path that does not exist gives [FileNotFoundError]; one that is not
    a regular file gives [ValidationError]; a size in MB (bytes divided
    by 1 048 576) strictly over the ceiling gives [ValidationError]; an
    extension that, lower-cased, is not supported gives
    [ValidationError]; anything else passes. *)
Theorem local_validation_checks_in_order (W : World) (self : FileService) (p : string) :
  is_url_true W p = false →
  probe_raises W p = None →
  checks_in_order W (validate_image_source W self) "Image" "image"
    (max_image_size_mb (settings self)) (supported_image_formats self) p
  ∧ checks_in_order W (validate_video_source W self) "Video" "video"
      (max_video_size_mb (settings self)) (supported_video_formats self) p.
Proof.
  intros Hu Hprobe. unfold checks_in_order, probe_raises in *.
  rewrite validate_image_source_eq, validate_video_source_eq, Hu.
  split.
  - split.
    { intros Hfs. rewrite Hfs in Hprobe.
      apply _validate_image_file_missing; assumption. }
    split; [apply _validate_image_file_not_regular|].
    intros content Hfs.
    eapply regular_checks_in_order, _validate_image_file_regular, Hfs.
  - split.
    { intros Hfs. rewrite Hfs in Hprobe.
      apply _validate_video_file_missing; assumption. }
    split; [apply _validate_video_file_not_regular|].
    intros content Hfs.
    eapply regular_checks_in_order, _validate_video_file_regular, Hfs.
Qed.

(** [notes.txt] is a regular file of five bytes: it passes the first
    three checks and fails the fourth. *)
Lemma local_validation_checks_in_order_witness :
  is_url_true model_world "notes.txt" = false
  ∧ probe_raises model_world "notes.txt" = None
  ∧ trace (validate_image_source model_world sample_service "notes.txt")
    = [PathExists "notes.txt"; PathIsFile "notes.txt"; PathStat "notes.txt"]
  ∧ outcome (validate_image_source model_world sample_service "notes.txt")
    = Err (ValidationError
             (unsupported_message model_world "image" ".txt"
                (supported_image_formats sample_service))
             None None).
Proof.
  split; [vm_compute; reflexivity|]. split; [vm_compute; reflexivity|].
  destruct (local_validation_checks_in_order model_world sample_service
              "notes.txt") as [(_ & _ & Hreg) _].
  - vm_compute; reflexivity.
  - vm_compute; reflexivity.
  - destruct (Hreg (bytes_of "hello")) as (Htrace & _ & Hext & _).
    + vm_compute; reflexivity.
    + split; [exact Htrace|].
      replace ".txt" with (Sys.path_suffix model_world "notes.txt")
        by (vm_compute; reflexivity).
      apply Hext.
      * unfold Qlt. vm_compute. discriminate.
      * intros Hin. apply (bool_decide_eq_true_2 _) in Hin.
        vm_compute in Hin. discriminate Hin.
Defined.

(** C10. A regular file whose size is exactly the ceiling times
    1 048 576 bytes is not too large, the comparison being strict: with
    a supported extension its validation succeeds. *)
Theorem size_at_ceiling_passes (W : World) (self : FileService) (p : string) (content : list byte) :
  is_url_true W p = false →
  fs W p = Some (RegularFile content) →
  (Z.of_nat (length content) = max_image_size_mb (settings self) * 1048576 →
   PyStr.lower (Sys.path_suffix W p) ∈ supported_image_formats self →
   outcome (validate_image_source W self p) = Ok tt)
  ∧ (Z.of_nat (length content) = max_video_size_mb (settings self) * 1048576 →
     PyStr.lower (Sys.path_suffix W p) ∈ supported_video_formats self →
     outcome (validate_video_source W self p) = Ok tt).
Proof.
  intros Hu Hfs.
  rewrite validate_image_source_eq, validate_video_source_eq, Hu.
  rewrite (_validate_image_file_regular _ _ _ _ Hfs).
  rewrite (_validate_video_file_regular _ _ _ _ Hfs).
  cbn [outcome snd]. split; intros -> Hext.
  - rewrite Z.ltb_irrefl, (bool_decide_eq_true_2 _ Hext). reflexivity.
  - rewrite Z.ltb_irrefl, (bool_decide_eq_true_2 _ Hext). reflexivity.
Qed.

Lemma size_at_ceiling_passes_witness :
  max_image_size_mb (settings sample_service) = 1
  ∧ outcome (validate_image_source model_world sample_service "full.png")
    = Ok tt.
Proof.
  split; [reflexivity|].
  destruct (size_at_ceiling_passes model_world sample_service "full.png"
              (repeat "000"%byte (N.to_nat 1048576)))
    as [Himage _].
  - vm_compute; reflexivity.
  - reflexivity.
  - apply Himage.
    + vm_compute; reflexivity.
    + by_bool_decide.
Defined.

(** *** Validating a URL *)

Section UrlValidation.

Variable W : World.

(** A failed request, whatever the exception, ends as [NetworkError]. *)
Lemma _validate_image_url_request_fails url e :
  http_head W url = Err e →
  ∃ m, _validate_image_url W url
       = ([HttpHead url client_timeout], Err (NetworkError m None None)).
Proof.
  intros Hh. unfold _validate_image_url, client_head. rewrite Hh.
  destruct e; eexists; reflexivity.
Qed.

Lemma _validate_image_url_bad_status url r :
  http_head W url = Ok r → is_success r = false →
  _validate_image_url W url =
  ([HttpHead url client_timeout],
   Err (NetworkError
          ("Cannot access image URL: " +:+ status_message W url r) None None)).
Proof.
  intros Hh Hs. unfold _validate_image_url, client_head, raise_for_status.
  rewrite Hh. unfold mbind, IO_bind, bind. rewrite Hs. reflexivity.
Qed.

(** The [ValidationError] raised on a foreign content type is raised
    inside the [try] block, where [except Exception] catches it. *)
Lemma _validate_image_url_other_type url r :
  http_head W url = Ok r → is_success r = true →
  PyStr.startswith
    (PyStr.lower (default "" (headers_get r "content-type"))) "image/" = false →
  _validate_image_url W url =
  ([HttpHead url client_timeout],
   Err (NetworkError
          ("Network error validating image URL: "
           +:+ "URL does not point to an image: "
           +:+ PyStr.lower (default "" (headers_get r "content-type")))
          None None)).
Proof.
  intros Hh Hs Hct. unfold _validate_image_url, client_head, raise_for_status.
  rewrite Hh. unfold mbind, IO_bind, bind. rewrite Hs. cbn [negb raise_if ret].
  rewrite Hct. reflexivity.
Qed.

Lemma _validate_image_url_accepts url r :
  http_head W url = Ok r → is_success r = true →
  PyStr.startswith
    (PyStr.lower (default "" (headers_get r "content-type"))) "image/" = true →
  _validate_image_url W url = ([HttpHead url client_timeout], Ok tt).
Proof.
  intros Hh Hs Hct. unfold _validate_image_url, client_head, raise_for_status.
  rewrite Hh. unfold mbind, IO_bind, bind. rewrite Hs. cbn [negb raise_if ret].
  rewrite Hct. reflexivity.
Qed.

(** Hence no call ends in [ValidationError]. *)
Lemma _validate_image_url_outcomes url :
  outcome (_validate_image_url W url) = Ok tt
  ∨ ∃ m, outcome (_validate_image_url W url) = Err (NetworkError m None None).
Proof.
  destruct (http_head W url) as [r|e] eqn:Hh.
  - destruct (is_success r) eqn:Hs.
    + destruct (PyStr.startswith
                  (PyStr.lower (default "" (headers_get r "content-type")))
                  "image/") eqn:Hct.
      * left. rewrite (_validate_image_url_accepts _ _ Hh Hs Hct). reflexivity.
      * right. rewrite (_validate_image_url_other_type _ _ Hh Hs Hct).
        eexists. reflexivity.
    + right. rewrite (_validate_image_url_bad_status _ _ Hh Hs).
      eexists. reflexivity.
  - right. destruct (_validate_image_url_request_fails _ _ Hh) as [m ->].
    eexists. reflexivity.
Qed.

Lemma _validate_video_url_other_type url r :
  http_head W url = Ok r → is_success r = true →
  PyStr.startswith
    (PyStr.lower (default "" (headers_get r "content-type"))) "video/" = false →
  _validate_video_url W url =
  ([HttpHead url client_timeout],
   Err (NetworkError
          ("Network error validating video URL: "
           +:+ "URL does not point to a video: "
           +:+ PyStr.lower (default "" (headers_get r "content-type")))
          None None)).
Proof.
  intros Hh Hs Hct. unfold _validate_video_url, client_head, raise_for_status.
  rewrite Hh. unfold mbind, IO_bind, bind. rewrite Hs. cbn [negb raise_if ret].
  rewrite Hct. reflexivity.
Qed.

End UrlValidation.

(** C1. The page at [https://example.com/page] answers the HEAD request
    with status 200 and content type [text/html].  Validating it as an
    image or as a video sends that one request and then fails with
    [NetworkError], whose text wraps the text of the [ValidationError]
    that was raised and caught; the error is not a [ValidationError]. *)
Theorem url_validation_foreign_content_type :
  http_head model_world "https://example.com/page"
  = Ok (mkResponse 200 [("Content-Type", "text/html")])
  ∧ validate_image_source model_world sample_service "https://example.com/page"
    = ([HttpHead "https://example.com/page" 10],
       Err (NetworkError
              "Network error validating image URL: URL does not point to an image: text/html"
              None None))
  ∧ validate_video_source model_world sample_service "https://example.com/page"
    = ([HttpHead "https://example.com/page" 10],
       Err (NetworkError
              "Network error validating video URL: URL does not point to a video: text/html"
              None None)).
Proof. repeat split; vm_compute; reflexivity. Qed.

(** *** File information *)

Section FileInfo.

Variable W : World.
Variable self : FileService.

Lemma get_file_info_eq source :
  get_file_info W self source =
  if is_url_true W source then
    try_except
      (response ← client_head W source;
       raise_for_status W source response;;
       mret ({[ "source" := VStr source;
                "type" := VStr "url";
                "size" := VNone;
                "content_type" :=
                  of_optional_str (headers_get response "content-type");
                "accessible" := VBool true ]} : gmap string pyval))
      [ (is_Exception,
         λ e, mret ({[ "source" := VStr source;
                       "type" := VStr "url";
                       "size" := VNone;
                       "content_type" := VNone;
                       "accessible" := VBool false;
                       "error" := VStr (str e) ]} : gmap string pyval)) ]
  else
    ex ← path_exists W source;
    if negb ex then
      mret ({[ "source" := VStr source;
               "type" := VStr "file";
               "size" := VNone;
               "content_type" := VNone;
               "accessible" := VBool false;
               "error" := VStr "File not found" ]} : gmap string pyval)
    else
      st_size ← path_stat_size W source;
      let suffix := Sys.path_suffix W source in
      let mime_type :=
        _get_mime_type suffix
          (bool_decide (suffix ∈ supported_video_formats self)) in
      mret ({[ "source" := VStr source;
               "type" := VStr "file";
               "size" := VInt st_size;
               "size_mb" := VFloat (inject_Z st_size / inject_Z (1024 * 1024));
               "content_type" := VStr mime_type;
               "accessible" := VBool true;
               "extension" := VStr suffix ]} : gmap string pyval).
Proof. unfold get_file_info. apply dispatch. Qed.

Lemma get_file_info_request_fails source e :
  is_url_true W source = true → http_head W source = Err e →
  get_file_info W self source =
  ([HttpHead source client_timeout], Ok (unreachable_record source e)).
Proof.
  intros Hu Hh. rewrite get_file_info_eq, Hu. unfold client_head.
  rewrite Hh. reflexivity.
Qed.

Lemma get_file_info_bad_status source r :
  is_url_true W source = true → http_head W source = Ok r →
  is_success r = false →
  get_file_info W self source =
  ([HttpHead source client_timeout],
   Ok (unreachable_record source (HTTPError (status_message W source r)))).
Proof.
  intros Hu Hh Hs. rewrite get_file_info_eq, Hu.
  unfold client_head, raise_for_status. rewrite Hh.
  unfold mbind, IO_bind, bind. rewrite Hs. reflexivity.
Qed.

Lemma get_file_info_reachable source r :
  is_url_true W source = true → http_head W source = Ok r →
  is_success r = true →
  ∃ d, get_file_info W self source = ([HttpHead source client_timeout], Ok d)
       ∧ d !! "accessible" = Some (VBool true)
       ∧ d !! "error" = None.
Proof.
  intros Hu Hh Hs. rewrite get_file_info_eq, Hu.
  unfold client_head, raise_for_status. rewrite Hh.
  unfold mbind, IO_bind, bind. rewrite Hs. cbn [negb raise_if ret].
  eexists. split; [reflexivity|]. split; reflexivity.
Qed.

Lemma get_file_info_probe_raises source e :
  is_url_true W source = false →
  fs W source = None → probe_error W source = Some e →
  get_file_info W self source = ([PathExists source], Err e).
Proof.
  intros Hu Hfs Hpe. rewrite get_file_info_eq, Hu. unfold path_exists.
  rewrite Hfs, Hpe. reflexivity.
Qed.

Lemma get_file_info_missing source :
  is_url_true W source = false →
  fs W source = None → probe_error W source = None →
  get_file_info W self source =
  ([PathExists source],
   Ok {[ "source" := VStr source;
         "type" := VStr "file";
         "size" := VNone;
         "content_type" := VNone;
         "accessible" := VBool false;
         "error" := VStr "File not found" ]}).
Proof.
  intros Hu Hfs Hpe. rewrite get_file_info_eq, Hu. unfold path_exists.
  rewrite Hfs, Hpe. reflexivity.
Qed.

Lemma get_file_info_present source n :
  is_url_true W source = false → fs W source = Some n →
  get_file_info W self source =
  ([PathExists source; PathStat source],
   Ok {[ "source" := VStr source;
         "type" := VStr "file";
         "size" := VInt (node_size n);
         "size_mb" := VFloat (inject_Z (node_size n) / inject_Z (1024 * 1024));
         "content_type" :=
           VStr (_get_mime_type (Sys.path_suffix W source)
                   (bool_decide (Sys.path_suffix W source
                                 ∈ supported_video_formats self)));
         "accessible" := VBool true;
         "extension" := VStr (Sys.path_suffix W source) ]}).
Proof.
  intros Hu Hfs. rewrite get_file_info_eq, Hu.
  unfold path_exists, path_stat_size. rewrite Hfs. reflexivity.
Qed.

End FileInfo.

(** C6, as the specification has it, fails.  For the local path whose
    name has 256 letters [get_file_info] returns no record: the
    existence probe fails with an [OSError], and the local branch has no
    handler for it. *)
Lemma get_file_info_probe_error_escapes :
  is_url_true model_world long_name = false
  ∧ (∃ m, get_file_info model_world sample_service long_name
          = ([PathExists long_name], Err (OSError m)))
  ∧ ¬ (∃ d, outcome (get_file_info model_world sample_service long_name)
            = Ok d).
Proof.
  split; [vm_compute; reflexivity|].
  split; [eexists; vm_compute; reflexivity|].
  intros [d H]. vm_compute in H. discriminate H.
Qed.

(** C6, amended. [get_file_info] returns a record, and raises nothing,
    for every URL source and for every local source whose existence
    probe does not fail with an [OSError].  When the source is a URL and
    the HEAD request fails, by an exception of the request or by a
    status outside 2xx, the record has [accessible = False] and the text
    of the failure under [error]; when it is a local path that does not
    exist, the record has [accessible = False] and
    [error = "File not found"]. *)
Theorem get_file_info_never_raises (W : World) (self : FileService) (source : string) :
  is_url_true W source = true ∨ probe_raises W source = None →
  ∃ d : gmap string pyval,
    outcome (get_file_info W self source) = Ok d
    ∧ (∀ e, is_url_true W source = true ∧ http_head W source = Err e →
            d !! "accessible" = Some (VBool false)
            ∧ d !! "error" = Some (VStr (str e)))
    ∧ (∀ r, is_url_true W source = true ∧ http_head W source = Ok r
            ∧ is_success r = false →
            d !! "accessible" = Some (VBool false)
            ∧ d !! "error" = Some (VStr (status_message W source r)))
    ∧ (is_url_true W source = false ∧ fs W source = None →
       d !! "accessible" = Some (VBool false)
       ∧ d !! "error" = Some (VStr "File not found")).
Proof.
  intros Hlocal.
  destruct (is_url_true W source) eqn:Hu.
  - destruct (http_head W source) as [r|e] eqn:Hh.
    + destruct (is_success r) eqn:Hs.
      * destruct (get_file_info_reachable W self _ _ Hu Hh Hs)
          as (d & -> & _ & _).
        exists d. split; [reflexivity|].
        split; [intros e [_ He]; discriminate|].
        split; [intros r' (_ & Hr' & Hs'); congruence|].
        intros [Hf _]; discriminate.
      * rewrite (get_file_info_bad_status W self _ _ Hu Hh Hs).
        eexists. split; [reflexivity|].
        split; [intros e [_ He]; discriminate|].
        split; [|intros [Hf _]; discriminate].
        intros r' (_ & Hr' & _).
        assert (r' = r) by congruence. subst r'. split; reflexivity.
    + rewrite (get_file_info_request_fails W self _ _ Hu Hh).
      eexists. split; [reflexivity|].
      split; [|split; [intros r (_ & Hr & _); discriminate
                      |intros [Hf _]; discriminate]].
      intros e' [_ He']. assert (e' = e) by congruence. subst e'.
      split; reflexivity.
  - destruct Hlocal as [Hf | Hprobe]; [discriminate Hf|].
    unfold probe_raises in Hprobe.
    destruct (fs W source) as [n|] eqn:Hfs.
    + rewrite (get_file_info_present W self _ _ Hu Hfs).
      eexists. split; [reflexivity|].
      split; [intros e [Hf _]; discriminate|].
      split; [intros r [Hf _]; discriminate|].
      intros [_ Hf]; discriminate.
    + rewrite (get_file_info_missing W self _ Hu Hfs Hprobe).
      eexists. split; [reflexivity|].
      split; [intros e [Hf _]; discriminate|].
      split; [intros r [Hf _]; discriminate|].
      intros _. split; reflexivity.
Qed.

(** [nothing] is a local path that does not exist; the site
    [nowhere.invalid] cannot be reached. *)
Lemma get_file_info_never_raises_witness :
  (∃ d : gmap string pyval,
     outcome (get_file_info model_world sample_service "nothing") = Ok d
     ∧ d !! "accessible" = Some (VBool false)
     ∧ d !! "error" = Some (VStr "File not found"))
  ∧ (∃ d : gmap string pyval,
       outcome (get_file_info model_world sample_service
                  "https://nowhere.invalid/x") = Ok d
       ∧ d !! "accessible" = Some (VBool false)
       ∧ d !! "error" = Some (VStr "All connection attempts failed")).
Proof.
  split.
  - destruct (get_file_info_never_raises model_world sample_service "nothing")
      as (d & Hd & _ & _ & Hmissing).
    + right. vm_compute; reflexivity.
    + exists d. split; [exact Hd|]. apply Hmissing.
      split; vm_compute; reflexivity.
  - destruct (get_file_info_never_raises model_world sample_service
                "https://nowhere.invalid/x")
      as (d & Hd & Hfail & _ & _).
    + left. vm_compute; reflexivity.
    + exists d. split; [exact Hd|].
      apply (Hfail (HTTPError "All connection attempts failed")).
      split; vm_compute; reflexivity.
Defined.

(** *** MIME types *)

Lemma _get_mime_type_image_default (extension : string) :
  PyStr.lower extension ∉ ({[ ".png"; ".jpg"; ".jpeg" ]} : gset string) →
  _get_mime_type extension false = "image/png".
Proof.
  intros Hout. unfold _get_mime_type. cbn [negb].
  rewrite !lookup_insert_ne, lookup_singleton_ne; [reflexivity|..];
    intros Heq; apply Hout; rewrite <- Heq; set_solver.
Qed.

Lemma _get_mime_type_png (extension : string) :
  PyStr.lower extension = ".png" → _get_mime_type extension false = "image/png".
Proof. intros Hl. unfold _get_mime_type. rewrite Hl. reflexivity. Qed.

(** C9. For an existing local path whose suffix, as written, is not in
    the (lower-case) set of video extensions, [get_file_info] looks the
    content type up in the image table; so it is ["image/png"] whenever
    the lower-cased suffix is none of [.png], [.jpg], [.jpeg]. *)
Theorem get_file_info_video_flag_is_case_sensitive (W : World) (cfg : Settings) (p : string) (n : node) :
  is_url_true W p = false →
  fs W p = Some n →
  Sys.path_suffix W p ∉ supported_video_formats (__init__ cfg) →
  ∃ d : gmap string pyval,
    outcome (get_file_info W (__init__ cfg) p) = Ok d
    ∧ d !! "content_type"
      = Some (VStr (_get_mime_type (Sys.path_suffix W p) false))
    ∧ (PyStr.lower (Sys.path_suffix W p)
       ∉ ({[ ".png"; ".jpg"; ".jpeg" ]} : gset string) →
       d !! "content_type" = Some (VStr "image/png")).
Proof.
  intros Hu Hfs Hraw.
  rewrite (get_file_info_present W _ _ _ Hu Hfs).
  rewrite (bool_decide_eq_false_2 _ Hraw).
  eexists. split; [reflexivity|]. split; [reflexivity|].
  intros Hout. rewrite (_get_mime_type_image_default _ Hout). reflexivity.
Qed.

(** [movie.MP4] passes video validation, which lower-cases the suffix,
    and is reported as ["image/png"]. *)
Lemma get_file_info_video_flag_is_case_sensitive_witness :
  Sys.path_suffix model_world "movie.MP4" = ".MP4"
  ∧ outcome (validate_video_source model_world sample_service "movie.MP4")
    = Ok tt
  ∧ ∃ d : gmap string pyval,
      outcome (get_file_info model_world sample_service "movie.MP4") = Ok d
      ∧ d !! "content_type" = Some (VStr "image/png").
Proof.
  split; [vm_compute; reflexivity|]. split; [vm_compute; reflexivity|].
  destruct (get_file_info_video_flag_is_case_sensitive model_world
              sample_settings "movie.MP4" (RegularFile (bytes_of "clip")))
    as (d & Hd & _ & Hpng).
  - vm_compute; reflexivity.
  - vm_compute; reflexivity.
  - intros Hin. apply (bool_decide_eq_true_2 _) in Hin.
    vm_compute in Hin. discriminate Hin.
  - exists d. split; [exact Hd|]. apply Hpng.
    intros Hin. apply (bool_decide_eq_true_2 _) in Hin.
    vm_compute in Hin. discriminate Hin.
Defined.

(** *** Base64 round trip *)

Module Base64Facts.

Import Base64.

Lemma char_sextet_char (s : sextet) : char_sextet (sextet_char s) = Some s.
Proof.
  destruct s as [[[[[b5 b4] b3] b2] b1] b0].
  destruct b5, b4, b3, b2, b1, b0; vm_compute; reflexivity.
Qed.

Lemma sextet_char_not_pad (s : sextet) : Ascii.eqb (sextet_char s) pad = false.
Proof.
  destruct s as [[[[[b5 b4] b3] b2] b1] b0].
  destruct b5, b4, b3, b2, b1, b0; vm_compute; reflexivity.
Qed.

Lemma char_of_enc (s : sextet) : ascii_of_byte (enc s) = sextet_char s.
Proof. apply ascii_of_byte_of_ascii. Qed.

Lemma char_of_pad : ascii_of_byte (byte_of_ascii pad) = pad.
Proof. apply ascii_of_byte_of_ascii. Qed.

(** Induction on a list three elements at a time. *)
Lemma list_ind_by_three {A} (P : list A → Prop) :
  P [] →
  (∀ a, P [a]) →
  (∀ a b, P [a; b]) →
  (∀ a b c rest, P rest → P (a :: b :: c :: rest)) →
  ∀ l, P l.
Proof.
  intros H0 H1 H2 H3 l.
  assert (Hall : P l ∧ (∀ a, P (a :: l)) ∧ (∀ a b, P (a :: b :: l))).
  { induction l as [|x l (IH0 & IH1 & IH2)].
    - auto.
    - split; [apply IH1|]. split; [intros a; apply IH2|].
      intros a b. apply H3, IH0. }
  apply Hall.
Qed.

Ltac bits_of b :=
  let E := fresh "E" in
  destruct (Byte.to_bits b) as [? [? [? [? [? [? [? ?]]]]]]] eqn:E.

Ltac decode_step :=
  unfold decode_utf8, string_of_list_byte;
  cbn [map string_of_list_ascii];
  rewrite ?char_of_enc, ?char_of_pad;
  cbn [b64decode];
  rewrite ?sextet_char_not_pad, ?char_sextet_char, ?Ascii.eqb_refl;
  cbn [mbind option_bind].

Lemma b64decode_b64encode (data : list byte) :
  b64decode (decode_utf8 (b64encode data)) = Some data.
Proof.
  induction data as [|a|a b|a b c rest IH] using list_ind_by_three.
  - reflexivity.
  - cbn [b64encode]. bits_of a. decode_step.
    unfold first_byte. rewrite <- E. rewrite Byte.of_bits_to_bits. reflexivity.
  - cbn [b64encode]. bits_of a. bits_of b. decode_step.
    unfold first_byte, second_byte. rewrite <- E, <- E0.
    rewrite !Byte.of_bits_to_bits. reflexivity.
  - cbn [b64encode]. bits_of a. bits_of b. bits_of c. decode_step.
    unfold decode_utf8, string_of_list_byte in IH. rewrite IH.
    cbn [mbind option_bind].
    unfold first_byte, second_byte, third_byte. rewrite <- E, <- E0, <- E1.
    rewrite !Byte.of_bits_to_bits. reflexivity.
Qed.

End Base64Facts.

(** *** Encoding a local file *)

(** C5, as the specification has it, fails.  [locked.png] is a local
    file with suffix [.png] and content [Man] that passes image
    validation, which only calls [stat]; it may not be opened, and the
    encoder ends in the [OSError] of the failed [open], not in a data
    URI. *)
Lemma encode_png_unreadable_file :
  is_url_true model_world "locked.png" = false
  ∧ Sys.path_suffix model_world "locked.png" = ".png"
  ∧ fs model_world "locked.png" = Some (RegularFile (bytes_of "Man"))
  ∧ outcome (validate_image_source model_world sample_service "locked.png")
    = Ok tt
  ∧ encode_image_to_base64 model_world sample_service "locked.png"
    = ([PathExists "locked.png"; PathIsFile "locked.png";
        PathStat "locked.png"; FileRead "locked.png"],
       Err (OSError "[Errno 13] Permission denied: 'locked.png'")).
Proof. repeat split; vm_compute; reflexivity. Qed.

(** C5, amended. A local file with suffix [.png] and content [B] that
    passes image validation and can be opened for reading is encoded as
    ["data:image/png;base64,"] followed by the base64 text of [B], and
    decoding that text gives [B] back. *)
Theorem encode_png_round_trip (W : World) (self : FileService) (p : string) (B : list byte) :
  is_url_true W p = false →
  Sys.path_suffix W p = ".png" →
  fs W p = Some (RegularFile B) →
  read_error W p = None →
  outcome (validate_image_source W self p) = Ok tt →
  ∃ payload : string,
    outcome (encode_image_to_base64 W self p)
    = Ok ("data:image/png;base64," +:+ payload)
    ∧ payload = Base64.decode_utf8 (Base64.b64encode B)
    ∧ Base64.b64decode payload = Some B.
Proof.
  intros Hu Hsuffix Hfs Hread Hvalid.
  exists (Base64.decode_utf8 (Base64.b64encode B)).
  split; [|split; [reflexivity | apply Base64Facts.b64decode_b64encode]].
  rewrite validate_image_source_eq, Hu in Hvalid.
  unfold encode_image_to_base64. rewrite dispatch, Hu.
  destruct (_validate_image_file W self p) as [t r] eqn:Hfile.
  cbn [outcome snd] in Hvalid. subst r.
  unfold read_bytes. rewrite Hfs, Hread, Hsuffix. reflexivity.
Qed.

Lemma encode_png_round_trip_witness :
  ∃ payload : string,
    outcome (encode_image_to_base64 model_world sample_service "photo.png")
    = Ok ("data:image/png;base64," +:+ payload)
    ∧ payload = "TWFu"
    ∧ Base64.b64decode payload = Some (bytes_of "Man").
Proof.
  destruct (encode_png_round_trip model_world sample_service "photo.png"
              (bytes_of "Man"))
    as (payload & Hout & Hpay & Hdec).
  - vm_compute; reflexivity.
  - vm_compute; reflexivity.
  - vm_compute; reflexivity.
  - vm_compute; reflexivity.
  - vm_compute; reflexivity.
  - exists payload. split; [exact Hout|]. split; [|exact Hdec].
    rewrite Hpay. vm_compute; reflexivity.
Defined.

(** *** Settings *)

Lemma _detect_platform_resolves (self : Settings) :
  _detect_platform self = ZAI ∨ _detect_platform self = ZHIPU.
Proof.
  unfold _detect_platform. destruct (api_key self) as [key|]; [|auto].
  destruct (negb _); [auto|]. destruct (_ || _); auto.
Qed.

Lemma __post_init___auto (raw : Settings) :
  platform_mode raw = AUTO →
  platform_mode (__post_init__ raw).1 = _detect_platform raw
  ∧ base_url (__post_init__ raw).1 = fixed_endpoint (_detect_platform raw).
Proof.
  intros Hauto. unfold __post_init__. rewrite Hauto. cbn [Platform_eqb].
  cbn [platform_mode set_platform_mode].
  destruct (_detect_platform_resolves raw) as [-> | ->];
    cbn [Platform_eqb platform_mode set_base_url api_key];
    destruct (negb _); split; reflexivity.
Qed.

(** What the method does to the platform when it is called with
    [platform_mode = AUTO]. *)
Lemma __post_init___platform_resolution (raw : Settings) :
  platform_mode raw = AUTO →
  (api_key raw = None ∨ api_key raw = Some "" → _detect_platform raw = ZHIPU)
  ∧ (∀ key, api_key raw = Some key ∧ key ≠ "" →
       _detect_platform raw =
       if PyStr.contains "zhipu" (PyStr.lower key)
          || PyStr.contains "glm" (PyStr.lower key)
       then ZHIPU else ZAI)
  ∧ platform_mode (__post_init__ raw).1 = _detect_platform raw
  ∧ base_url (__post_init__ raw).1 = fixed_endpoint (_detect_platform raw).
Proof.
  intros Hauto.
  destruct (__post_init___auto raw Hauto) as [Hmode Hurl].
  split; [|split; [|split; [exact Hmode|exact Hurl]]].
  - unfold _detect_platform. intros [-> | ->]; reflexivity.
  - intros key [Hkey Hne]. unfold _detect_platform. rewrite Hkey.
    apply truthy_VStr in Hne. rewrite Hne. reflexivity.
Qed.

Lemma fields_valid_defaults key url mode :
  fields_valid (defaults key url mode) = true.
Proof. reflexivity. Qed.

(** Loading returns the values read, or raises. *)
Lemma load_Ok_inv (raw s : Settings) : load raw = Ok s → s = raw.
Proof. unfold load. destruct (fields_valid raw); [congruence | discriminate]. Qed.

(** C7. Loading with [PLATFORM_MODE=AUTO], an API key that holds ["GLM"]
    and a base URL of the user's succeeds and returns the values as they
    were read: the platform is still [AUTO] and the base URL is still
    the user's.  The method that resolves the platform to ZHIPU and
    sets the ZHIPU endpoint is not run by loading; called by hand on
    the same values it does both. *)
Theorem load_leaves_platform_unresolved :
  (∃ s, load (defaults (Some "my-GLM-key") "http://localhost:9000/" AUTO) = Ok s
        ∧ platform_mode s = AUTO
        ∧ base_url s = "http://localhost:9000/")
  ∧ platform_mode
      (__post_init__
         (defaults (Some "my-GLM-key") "http://localhost:9000/" AUTO)).1
    = ZHIPU
  ∧ base_url
      (__post_init__
         (defaults (Some "my-GLM-key") "http://localhost:9000/" AUTO)).1
    = "https://open.bigmodel.cn/api/paas/v4/".
Proof.
  split; [eexists; split; [reflexivity | split; reflexivity]|].
  split; reflexivity.
Qed.




(* ===================================================================== *)
(** ** Further properties of the settings *)
(* ===================================================================== *)

Section SettingsFacts.

Lemma resolved_platform_not_AUTO (raw : Settings) :
  resolved_platform raw = ZAI ∨ resolved_platform raw = ZHIPU.
Proof.
  unfold resolved_platform. destruct (platform_mode raw); auto.
  apply _detect_platform_resolves.
Qed.

(** [__post_init__], in one equation. *)
Lemma __post_init___eq (raw : Settings) :
  __post_init__ raw =
  if truthy (of_optional_str (api_key raw))
  then (post_initialised raw, Ok tt)
  else ((__post_init__ raw).1,
        Err (ValueError "Z_AI_API_KEY environment variable is required")).
Proof.
  pose proof (resolved_platform_not_AUTO raw) as Hres.
  unfold post_initialised, serving_projection, resolved_platform in *.
  unfold __post_init__.
  destruct raw as [sn sv tr ho po de ll key url mode vm te tp mt ts rc rd mi mv rl fm].
  cbn [platform_mode api_key set_platform_mode set_base_url] in *.
  destruct mode; cbn [Platform_eqb platform_mode set_platform_mode] in *.
  - cbn [api_key set_base_url].
    destruct (truthy (of_optional_str key)); reflexivity.
  - cbn [api_key set_base_url].
    destruct (truthy (of_optional_str key)); reflexivity.
  - destruct Hres as [-> | ->];
      cbn [Platform_eqb platform_mode api_key set_base_url set_platform_mode];
      destruct (truthy (of_optional_str key)); reflexivity.
Qed.

Lemma __post_init___returns_iff (raw s : Settings) :
  __post_init__ raw = (s, Ok tt) ↔
  truthy (of_optional_str (api_key raw)) = true ∧ s = post_initialised raw.
Proof.
  rewrite __post_init___eq. destruct (truthy _); split.
  - intros [= <-]. auto.
  - intros [_ ->]. reflexivity.
  - discriminate.
  - intros [[=] _].
Qed.

Lemma key_present_iff (o : option string) :
  truthy (of_optional_str o) = true ↔ ∃ key, o = Some key ∧ key ≠ "".
Proof.
  destruct o as [key|]; cbn [of_optional_str].
  - rewrite truthy_VStr. split.
    + intros Hne. exists key. auto.
    + intros (k & [= <-] & Hne). exact Hne.
  - split; [discriminate|]. intros (k & [=] & _).
Qed.

(** X1. A call of [__post_init__] returns, rather than raises, exactly
    when the API key is present and not empty; the platform mode, the
    base URL and all other fields have no say in it. *)
Theorem post_init_returns_iff_key_present (raw : Settings) :
  (__post_init__ raw).2 = Ok tt ↔ (∃ key, api_key raw = Some key ∧ key ≠ "").
Proof.
  rewrite <- key_present_iff, __post_init___eq.
  destruct (truthy _); cbn [snd]; split; (reflexivity || discriminate).
Qed.

(** X2. When a call of [__post_init__] returns, the object never has
    platform [AUTO], and its base URL is the fixed endpoint of its
    platform: one of the two built-in URLs, never the one it had. *)
Theorem post_init_invariant (raw s : Settings) :
  __post_init__ raw = (s, Ok tt) →
  platform_mode s ≠ AUTO
  ∧ base_url s = fixed_endpoint (platform_mode s)
  ∧ (base_url s = "https://api.z.ai/api/paas/v4/"
     ∨ base_url s = "https://open.bigmodel.cn/api/paas/v4/").
Proof.
  intros Hs. apply __post_init___returns_iff in Hs as [_ ->].
  unfold post_initialised. cbn [platform_mode base_url].
  destruct (resolved_platform_not_AUTO raw) as [-> | ->];
    (split; [discriminate|]); split; cbn [fixed_endpoint]; auto.
Qed.

Lemma post_init_invariant_witness :
  ∃ s, __post_init__ (defaults (Some "sk-12345") "http://localhost:9000/v1/" ZHIPU)
       = (s, Ok tt)
       ∧ base_url s = "https://open.bigmodel.cn/api/paas/v4/".
Proof.
  eexists. split; [reflexivity|].
  destruct (post_init_invariant
              (defaults (Some "sk-12345") "http://localhost:9000/v1/" ZHIPU)
              _ eq_refl) as (_ & Hurl & _).
  exact Hurl.
Defined.

(** X3. When [__post_init__] is called with a platform set explicitly,
    the platform is kept, whatever the API key looks like, and it alone
    decides the base URL. *)
Theorem explicit_platform_is_kept (raw s : Settings) :
  platform_mode raw ≠ AUTO →
  __post_init__ raw = (s, Ok tt) →
  platform_mode s = platform_mode raw
  ∧ base_url s = fixed_endpoint (platform_mode raw).
Proof.
  intros Hmode Hs. apply __post_init___returns_iff in Hs as [_ ->].
  unfold post_initialised, resolved_platform. cbn [platform_mode base_url].
  destruct (platform_mode raw); [auto | auto | contradiction].
Qed.

Lemma explicit_platform_is_kept_witness :
  _detect_platform (defaults (Some "glm-key") default_base_url ZAI) = ZHIPU
  ∧ ∃ s, __post_init__ (defaults (Some "glm-key") default_base_url ZAI)
         = (s, Ok tt)
         ∧ platform_mode s = ZAI
         ∧ base_url s = "https://api.z.ai/api/paas/v4/".
Proof.
  split; [reflexivity|]. eexists. split; [reflexivity|].
  apply (explicit_platform_is_kept
           (defaults (Some "glm-key") default_base_url ZAI));
    [discriminate | reflexivity].
Defined.

(** X4. Apart from the platform and the base URL, a call of
    [__post_init__] that returns changes one field: [fastmcp_settings]
    becomes the dictionary of the log level, the time-out and the rate
    limit, whatever it held before.  All other fields are untouched. *)
Theorem post_init_keeps_other_fields (raw s : Settings) :
  __post_init__ raw = (s, Ok tt) →
  fastmcp_settings s =
    {[ "log_level" := VStr (log_level s);
       "timeout" := VInt (timeout_seconds s);
       "max_concurrent_requests" := VInt (rate_limit s) ]}
  ∧ api_key s = api_key raw
  ∧ server_name s = server_name raw
  ∧ server_version s = server_version raw
  ∧ transport s = transport raw
  ∧ host s = host raw
  ∧ port s = port raw
  ∧ debug s = debug raw
  ∧ log_level s = log_level raw
  ∧ vision_model s = vision_model raw
  ∧ temperature s = temperature raw
  ∧ top_p s = top_p raw
  ∧ max_tokens s = max_tokens raw
  ∧ timeout_seconds s = timeout_seconds raw
  ∧ retry_count s = retry_count raw
  ∧ retry_delay_seconds s = retry_delay_seconds raw
  ∧ max_image_size_mb s = max_image_size_mb raw
  ∧ max_video_size_mb s = max_video_size_mb raw
  ∧ rate_limit s = rate_limit raw.
Proof.
  intros Hs. apply __post_init___returns_iff in Hs as [_ ->].
  unfold post_initialised, serving_projection. cbn. repeat split; reflexivity.
Qed.

Lemma post_init_keeps_other_fields_witness :
  ∃ s, __post_init__ (defaults (Some "sk-12345") default_base_url AUTO)
       = (s, Ok tt)
       ∧ fastmcp_settings s !! "timeout" = Some (VInt 300)
       ∧ api_key s = Some "sk-12345".
Proof.
  eexists. split; [reflexivity|].
  destruct (post_init_keeps_other_fields
              (defaults (Some "sk-12345") default_base_url AUTO) _ eq_refl)
    as (Hfm & Hkey & _).
  split; [rewrite Hfm; reflexivity | exact Hkey].
Defined.

(** X5. [__post_init__] is idempotent: called again on the object a
    first call left when it returned, it returns and leaves the object
    as it is. *)
Theorem post_init_idempotent (raw s : Settings) :
  __post_init__ raw = (s, Ok tt) → __post_init__ s = (s, Ok tt).
Proof.
  intros Hs. apply __post_init___returns_iff in Hs as [Hkey ->].
  apply __post_init___returns_iff. split; [exact Hkey|].
  unfold post_initialised at 1 3. unfold serving_projection, resolved_platform.
  cbn [server_name server_version transport host port debug log_level
       api_key base_url platform_mode vision_model temperature top_p
       max_tokens timeout_seconds retry_count retry_delay_seconds
       max_image_size_mb max_video_size_mb rate_limit post_initialised].
  destruct (resolved_platform_not_AUTO raw) as [H | H];
    unfold resolved_platform in H; rewrite H; reflexivity.
Qed.

Lemma post_init_idempotent_witness :
  ∃ s, __post_init__ (defaults (Some "my-GLM-key") "http://localhost/" AUTO)
       = (s, Ok tt)
       ∧ __post_init__ s = (s, Ok tt).
Proof.
  eexists. split; [reflexivity|].
  apply (post_init_idempotent (defaults (Some "my-GLM-key") "http://localhost/" AUTO)).
  reflexivity.
Defined.

Lemma lower_empty_iff (s : string) : PyStr.lower s = "" ↔ s = "".
Proof. destruct s; cbn; split; congruence. Qed.

(** X6. Platform detection looks at the key up to letter case only: two
    keys that differ in case alone are detected alike. *)
Theorem _detect_platform_ignores_case (a b : Settings) (k1 k2 : string) :
  api_key a = Some k1 →
  api_key b = Some k2 →
  PyStr.lower k1 = PyStr.lower k2 →
  _detect_platform a = _detect_platform b.
Proof.
  intros Ha Hb Hl. unfold _detect_platform. rewrite Ha, Hb, Hl.
  assert (Ht : truthy (VStr k1) = truthy (VStr k2)).
  { apply eq_true_iff_eq. rewrite !truthy_VStr.
    rewrite <- (lower_empty_iff k1), <- (lower_empty_iff k2), Hl. tauto. }
  rewrite Ht. reflexivity.
Qed.

Lemma _detect_platform_ignores_case_witness :
  _detect_platform (defaults (Some "Key-ZhiPu-01") default_base_url AUTO)
  = _detect_platform (defaults (Some "key-zhipu-01") default_base_url AUTO)
  ∧ _detect_platform (defaults (Some "key-zhipu-01") default_base_url AUTO)
    = ZHIPU.
Proof.
  split; [|reflexivity].
  apply (_detect_platform_ignores_case _ _ "Key-ZhiPu-01" "key-zhipu-01");
    reflexivity.
Defined.

(** *** The chat-completions endpoint *)

Lemma rstrip_chars (c : ascii) (n : nat) : rstrip c (chars c n) = "".
Proof.
  induction n as [|n IH]; [reflexivity|].
  cbn [chars rstrip]. rewrite IH, Ascii.eqb_refl. reflexivity.
Qed.

Lemma rstrip_app_chars (c : ascii) (s : string) (n : nat) :
  rstrip c (s +:+ chars c n) = rstrip c s.
Proof.
  induction s as [|d s IH].
  - change ("" +:+ chars c n) with (chars c n).
    rewrite rstrip_chars. reflexivity.
  - change (String d s +:+ chars c n) with (String d (s +:+ chars c n)).
    cbn [rstrip]. rewrite IH. reflexivity.
Qed.

Lemma rstrip_not_ends_in (c : ascii) (s : string) :
  ends_in c (rstrip c s) = false.
Proof.
  induction s as [|d s IH]; [reflexivity|].
  cbn [rstrip]. destruct (rstrip c s) as [|e r].
  - destruct (Ascii.eqb d c) eqn:Hd; cbn [ends_in]; [reflexivity | exact Hd].
  - exact IH.
Qed.

Lemma rstrip_decompose (c : ascii) (s : string) :
  ∃ n, s = rstrip c s +:+ chars c n.
Proof.
  induction s as [|d s [n IH]]; [exists O; reflexivity|].
  cbn [rstrip]. destruct (rstrip c s) as [|e r].
  - change ("" +:+ chars c n) with (chars c n) in IH.
    destruct (Ascii.eqb_spec d c) as [-> | Hd].
    + exists (S n). rewrite IH at 1. reflexivity.
    + exists n. rewrite IH at 1. reflexivity.
  - exists n. rewrite IH at 1. reflexivity.
Qed.

(** X7. The endpoint is the base URL without its trailing slashes,
    however many there are, followed by [/chat/completions]; so a base
    URL written with or without trailing slashes gives one endpoint,
    and the endpoint never has a doubled slash at the joint. *)
Theorem api_endpoint_strips_trailing_slashes (s : Settings) :
  (∃ stem n,
     base_url s = stem +:+ chars "/" n
     ∧ ends_in "/" stem = false
     ∧ api_endpoint s = stem +:+ "/chat/completions")
  ∧ (∀ url n,
       api_endpoint (set_base_url s (url +:+ chars "/" n))
       = api_endpoint (set_base_url s url)).
Proof.
  split.
  - destruct (rstrip_decompose "/" (base_url s)) as [n Hn].
    exists (rstrip "/" (base_url s)), n.
    split; [exact Hn|]. split; [apply rstrip_not_ends_in | reflexivity].
  - intros url n. unfold api_endpoint. cbn [base_url set_base_url].
    rewrite rstrip_app_chars. reflexivity.
Qed.

(** X8. When a call of [__post_init__] has returned, the endpoint is
    one of two addresses, and the platform says which. *)
Theorem post_init_api_endpoint (raw s : Settings) :
  __post_init__ raw = (s, Ok tt) →
  api_endpoint s =
  match platform_mode s with
  | ZHIPU => "https://open.bigmodel.cn/api/paas/v4/chat/completions"
  | _ => "https://api.z.ai/api/paas/v4/chat/completions"
  end.
Proof.
  intros Hs. apply __post_init___returns_iff in Hs as [_ ->].
  unfold api_endpoint, post_initialised. cbn [base_url platform_mode].
  destruct (resolved_platform_not_AUTO raw) as [-> | ->]; reflexivity.
Qed.

Lemma post_init_api_endpoint_witness :
  ∃ s, __post_init__ (defaults (Some "sk-12345") "http://localhost:9000" AUTO)
       = (s, Ok tt)
       ∧ api_endpoint s = "https://api.z.ai/api/paas/v4/chat/completions".
Proof.
  eexists. split; [reflexivity|].
  apply (post_init_api_endpoint
           (defaults (Some "sk-12345") "http://localhost:9000" AUTO)).
  reflexivity.
Defined.

(** *** The cached accessor *)

(** X9. Once a call of [get_settings] has returned an instance, every
    later call returns that same instance and keeps it cached, whatever
    the environment has become in between. *)
Theorem get_settings_is_memoised (cache cache' : option Settings) (env s : Settings) (later : list Settings) :
  get_settings cache env = (cache', Ok s) →
  get_settings_calls cache' later = (Some s, (λ _, Ok s) <$> later).
Proof.
  intros Hfirst.
  assert (Hc : cache' = Some s).
  { unfold get_settings in Hfirst. destruct cache as [c|].
    - injection Hfirst as <- <-. reflexivity.
    - destruct (load env); injection Hfirst as <- E; congruence. }
  subst cache'. clear Hfirst.
  induction later as [|env' later IH]; [reflexivity|].
  cbn [get_settings_calls get_settings fmap list_fmap]. rewrite IH. reflexivity.
Qed.

Lemma get_settings_is_memoised_witness :
  ∃ s, get_settings None (defaults (Some "sk-12345") default_base_url AUTO)
       = (Some s, Ok s)
       ∧ get_settings_calls (Some s)
           [defaults None default_base_url AUTO;
            defaults (Some "glm-other") default_base_url ZHIPU]
         = (Some s, [Ok s; Ok s]).
Proof.
  eexists. split; [reflexivity|].
  apply (get_settings_is_memoised None _
           (defaults (Some "sk-12345") default_base_url AUTO)).
  reflexivity.
Defined.

(** A call that raises caches nothing: the next call loads again. *)
Lemma get_settings_failure_not_cached (env : Settings) (e : exn) :
  get_settings None env = (None, Err e) ↔ load env = Err e.
Proof.
  unfold get_settings. destruct (load env) as [s|e'].
  - split; discriminate.
  - split; intros [= ->]; reflexivity.
Qed.

(** The check made at loading is the check of the declared bounds. *)
Lemma Qbetween_iff (lo x hi : Q) : Qbetween lo x hi = true ↔ (lo <= x <= hi)%Q.
Proof.
  unfold Qbetween. rewrite andb_true_iff, !Qle_bool_iff. reflexivity.
Qed.

Lemma Zbetween_iff (lo x hi : Z) : Zbetween lo x hi = true ↔ lo <= x <= hi.
Proof. unfold Zbetween. rewrite andb_true_iff, !Z.leb_le. reflexivity. Qed.

Lemma fields_valid_iff (s : Settings) : fields_valid s = true ↔ within_bounds s.
Proof.
  unfold fields_valid, within_bounds.
  rewrite !andb_true_iff, !Qbetween_iff, !Zbetween_iff. tauto.
Qed.

End SettingsFacts.

(* ===================================================================== *)
(** ** Further properties of the file service *)
(* ===================================================================== *)

(** *** URL validation *)

Section UrlFacts.

Variable W : World.

(** The two URL validators, in one equation each. *)
Lemma _validate_image_url_eq (url : string) :
  _validate_image_url W url =
  ([HttpHead url client_timeout],
   match http_head W url with
   | Err e =>
       Err (NetworkError
              ((if is_HTTPError e then "Cannot access image URL: "
                else "Network error validating image URL: ") +:+ str e)
              None None)
   | Ok r =>
       if negb (is_success r) then
         Err (NetworkError
                ("Cannot access image URL: " +:+ status_message W url r)
                None None)
       else if PyStr.startswith (content_type_of r) "image/" then Ok tt
       else
         Err (NetworkError
                ("Network error validating image URL: "
                 +:+ "URL does not point to an image: " +:+ content_type_of r)
                None None)
   end).
Proof.
  unfold _validate_image_url, client_head, raise_for_status, content_type_of.
  destruct (http_head W url) as [r|e].
  - unfold mbind, IO_bind, bind. destruct (is_success r); cbn [negb raise_if ret raise].
    + destruct (PyStr.startswith _ _); reflexivity.
    + reflexivity.
  - destruct e; reflexivity.
Qed.

Lemma _validate_video_url_eq (url : string) :
  _validate_video_url W url =
  ([HttpHead url client_timeout],
   match http_head W url with
   | Err e =>
       Err (NetworkError
              ((if is_HTTPError e then "Cannot access video URL: "
                else "Network error validating video URL: ") +:+ str e)
              None None)
   | Ok r =>
       if negb (is_success r) then
         Err (NetworkError
                ("Cannot access video URL: " +:+ status_message W url r)
                None None)
       else if PyStr.startswith (content_type_of r) "video/" then Ok tt
       else
         Err (NetworkError
                ("Network error validating video URL: "
                 +:+ "URL does not point to a video: " +:+ content_type_of r)
                None None)
   end).
Proof.
  unfold _validate_video_url, client_head, raise_for_status, content_type_of.
  destruct (http_head W url) as [r|e].
  - unfold mbind, IO_bind, bind. destruct (is_success r); cbn [negb raise_if ret raise].
    + destruct (PyStr.startswith _ _); reflexivity.
    + reflexivity.
  - destruct e; reflexivity.
Qed.

End UrlFacts.

Lemma url_validation_accepts_iff (W : World) (self : FileService) (source : string) :
  is_url_true W source = true →
  (outcome (validate_image_source W self source) = Ok tt
   ↔ probe_accepts W source "image/" = true)
  ∧ (outcome (validate_video_source W self source) = Ok tt
     ↔ probe_accepts W source "video/" = true).
Proof.
  intros Hu.
  rewrite validate_image_source_eq, validate_video_source_eq, Hu.
  rewrite _validate_image_url_eq, _validate_video_url_eq.
  unfold probe_accepts. cbn [outcome snd].
  destruct (http_head W source) as [r|e]; [|split; split; discriminate].
  destruct (is_success r); cbn [negb andb]; [|split; split; discriminate].
  split; destruct (PyStr.startswith _ _); split; (reflexivity || discriminate).
Qed.

(** X11. Validating a URL source sends exactly one HEAD request and
    touches no file.  It succeeds exactly when the request is answered
    with a 2xx status and a content type that, lower-cased, starts with
    [image/] (resp. [video/]); a missing header counts as the empty
    type.  Every failure, whatever its cause, is a [NetworkError]. *)
Theorem url_validation_outcome (W : World) (self : FileService) (source : string) :
  is_url_true W source = true →
  (trace (validate_image_source W self source) = [HttpHead source 10]
   ∧ (outcome (validate_image_source W self source) = Ok tt
      ↔ probe_accepts W source "image/" = true)
   ∧ (probe_accepts W source "image/" = false →
      ∃ m, outcome (validate_image_source W self source)
           = Err (NetworkError m None None)))
  ∧ (trace (validate_video_source W self source) = [HttpHead source 10]
     ∧ (outcome (validate_video_source W self source) = Ok tt
        ↔ probe_accepts W source "video/" = true)
     ∧ (probe_accepts W source "video/" = false →
        ∃ m, outcome (validate_video_source W self source)
             = Err (NetworkError m None None))).
Proof.
  intros Hu.
  rewrite validate_image_source_eq, validate_video_source_eq, Hu.
  rewrite _validate_image_url_eq, _validate_video_url_eq.
  unfold probe_accepts. cbn [trace outcome fst snd].
  assert (Hno : ∀ m : string,
            (Err (NetworkError m None None) = Ok tt ↔ false = true)
            ∧ (false = false →
               ∃ m', Err (NetworkError m None None)
                     = Err (NetworkError m' None None) :> result unit)).
  { intros m. split; [split; discriminate | intros _; eexists; reflexivity]. }
  split; (split; [reflexivity|]);
    (destruct (http_head W source) as [r|e]; [|apply Hno]);
    (destruct (is_success r); cbn [negb andb]; [|apply Hno]);
    (destruct (PyStr.startswith _ _); [|apply Hno]);
    (split; [split; reflexivity | discriminate]).
Qed.

Lemma url_validation_outcome_witness :
  outcome (validate_image_source model_world sample_service
             "https://example.com/a.png") = Ok tt
  ∧ ∃ m, outcome (validate_video_source model_world sample_service
                    "https://example.com/a.png")
         = Err (NetworkError m None None).
Proof.
  destruct (url_validation_outcome model_world sample_service
              "https://example.com/a.png") as [(_ & Himg & _) (_ & _ & Hvid)].
  - vm_compute; reflexivity.
  - split.
    + apply Himg. vm_compute; reflexivity.
    + apply Hvid. vm_compute; reflexivity.
Defined.

(** *** What validation raises and what it touches *)

Section ValidationFacts.

Variable W : World.
Variable self : FileService.

(** Local validation, each function reduced to a case on the path. *)
Lemma _validate_image_file_cases p :
  (fs W p = None ∧ (∃ e, probe_error W p = Some e
                         ∧ _validate_image_file W self p = ([PathExists p], Err e)))
  ∨ (fs W p = None ∧ probe_error W p = None
   ∧ _validate_image_file W self p
     = ([PathExists p],
        Err (FileNotFoundError ("Image file not found: " +:+ p) None)))
  ∨ (fs W p ≠ None
     ∧ ∃ t, _validate_image_file W self p = (t, Ok tt)
            ∧ (t = [PathExists p; PathIsFile p; PathStat p])
            ∧ PyStr.lower (Sys.path_suffix W p) ∈ supported_image_formats self
            ∧ ∃ content, fs W p = Some (RegularFile content)
                ∧ Z.of_nat (length content)
                  <= max_image_size_mb (settings self) * 1048576)
  ∨ (fs W p ≠ None
     ∧ ∃ t m, _validate_image_file W self p
              = (t, Err (ValidationError m None None))
              ∧ (t = [PathExists p; PathIsFile p]
                 ∨ t = [PathExists p; PathIsFile p; PathStat p])).
Proof.
  destruct (fs W p) as [[content|sz]|] eqn:Hfs.
  - do 2 right. rewrite (_validate_image_file_regular _ _ _ _ Hfs). cbn zeta.
    destruct (Z.ltb_spec (max_image_size_mb (settings self) * 1048576)
                (Z.of_nat (length content))) as [Hlt|Hle].
    + right. split; [discriminate|]. do 2 eexists. split; [reflexivity|auto].
    + destruct (bool_decide_reflect
                  (PyStr.lower (Sys.path_suffix W p)
                   ∈ supported_image_formats self)) as [Hin|Hout].
      * left. split; [discriminate|]. eexists. split; [reflexivity|].
        split; [reflexivity|]. split; [exact Hin|]. eauto.
      * right. split; [discriminate|]. do 2 eexists. split; [reflexivity|auto].
  - do 3 right. split; [discriminate|].
    rewrite (_validate_image_file_not_regular _ _ _ _ Hfs).
    do 2 eexists. split; [reflexivity|auto].
  - destruct (probe_error W p) as [e|] eqn:Hpe.
    + left. split; [reflexivity|]. exists e. split; [reflexivity|].
      apply (_validate_image_file_probe_raises _ _ _ _ Hfs Hpe).
    + right. left. do 2 (split; [reflexivity|]).
      apply (_validate_image_file_missing _ _ _ Hfs Hpe).
Qed.

Lemma _validate_video_file_cases p :
  (fs W p = None ∧ (∃ e, probe_error W p = Some e
                         ∧ _validate_video_file W self p = ([PathExists p], Err e)))
  ∨ (fs W p = None ∧ probe_error W p = None
   ∧ _validate_video_file W self p
     = ([PathExists p],
        Err (FileNotFoundError ("Video file not found: " +:+ p) None)))
  ∨ (fs W p ≠ None
     ∧ ∃ t, _validate_video_file W self p = (t, Ok tt)
            ∧ (t = [PathExists p; PathIsFile p; PathStat p])
            ∧ PyStr.lower (Sys.path_suffix W p) ∈ supported_video_formats self
            ∧ ∃ content, fs W p = Some (RegularFile content)
                ∧ Z.of_nat (length content)
                  <= max_video_size_mb (settings self) * 1048576)
  ∨ (fs W p ≠ None
     ∧ ∃ t m, _validate_video_file W self p
              = (t, Err (ValidationError m None None))
              ∧ (t = [PathExists p; PathIsFile p]
                 ∨ t = [PathExists p; PathIsFile p; PathStat p])).
Proof.
  destruct (fs W p) as [[content|sz]|] eqn:Hfs.
  - do 2 right. rewrite (_validate_video_file_regular _ _ _ _ Hfs). cbn zeta.
    destruct (Z.ltb_spec (max_video_size_mb (settings self) * 1048576)
                (Z.of_nat (length content))) as [Hlt|Hle].
    + right. split; [discriminate|]. do 2 eexists. split; [reflexivity|auto].
    + destruct (bool_decide_reflect
                  (PyStr.lower (Sys.path_suffix W p)
                   ∈ supported_video_formats self)) as [Hin|Hout].
      * left. split; [discriminate|]. eexists. split; [reflexivity|].
        split; [reflexivity|]. split; [exact Hin|]. eauto.
      * right. split; [discriminate|]. do 2 eexists. split; [reflexivity|auto].
  - do 3 right. split; [discriminate|].
    rewrite (_validate_video_file_not_regular _ _ _ _ Hfs).
    do 2 eexists. split; [reflexivity|auto].
  - destruct (probe_error W p) as [e|] eqn:Hpe.
    + left. split; [reflexivity|]. exists e. split; [reflexivity|].
      apply (_validate_video_file_probe_raises _ _ _ _ Hfs Hpe).
    + right. left. do 2 (split; [reflexivity|]).
      apply (_validate_video_file_missing _ _ _ Hfs Hpe).
Qed.

End ValidationFacts.

(** X12. Whatever validation raises is either the [OSError] of a
    failed file-system probe, passed on as it is, or an error with a
    code; no exception of the HTTP client reaches the caller as it is.
    For a URL source the code is [NETWORK_ERROR]; for a local source it
    is [FILE_NOT_FOUND] when the path does not exist and
    [VALIDATION_ERROR] when it exists. *)
Theorem validation_errors_are_coded (W : World) (self : FileService) (source : string) (e : exn) :
  outcome (validate_image_source W self source) = Err e
  ∨ outcome (validate_video_source W self source) = Err e →
  if is_url_true W source
  then error_code e = Some "NETWORK_ERROR"
  else probe_raises W source = Some e
       ∨ (fs W source = None ∧ probe_raises W source = None
          ∧ error_code e = Some "FILE_NOT_FOUND")
       ∨ (fs W source ≠ None ∧ error_code e = Some "VALIDATION_ERROR").
Proof.
  rewrite validate_image_source_eq, validate_video_source_eq.
  destruct (is_url_true W source) eqn:Hu.
  - rewrite _validate_image_url_eq, _validate_video_url_eq.
    cbn [outcome snd].
    destruct (http_head W source) as [r|e'];
      [destruct (is_success r); cbn [negb];
       [destruct (PyStr.startswith (content_type_of r) "image/");
        destruct (PyStr.startswith (content_type_of r) "video/")|]|];
      intros [H | H]; try discriminate H; injection H as <-; reflexivity.
  - unfold probe_raises. intros [H | H].
    + destruct (_validate_image_file_cases W self source)
        as [(Hfs & e0 & Hpe & Heq) | [(Hfs & Hpe & Heq)
           | [(Hfs & t & Heq & _) | (Hfs & t & m & Heq & _)]]];
        rewrite Heq in H; cbn [outcome snd] in H;
        try discriminate H; injection H as <-; rewrite ?Hfs; auto.
    + destruct (_validate_video_file_cases W self source)
        as [(Hfs & e0 & Hpe & Heq) | [(Hfs & Hpe & Heq)
           | [(Hfs & t & Heq & _) | (Hfs & t & m & Heq & _)]]];
        rewrite Heq in H; cbn [outcome snd] in H;
        try discriminate H; injection H as <-; rewrite ?Hfs; auto.
Qed.

Lemma validation_errors_are_coded_witness :
  ∃ e, outcome (validate_image_source model_world sample_service "notes.txt")
       = Err e
       ∧ error_code e = Some "VALIDATION_ERROR".
Proof.
  eexists. split; [vm_compute; reflexivity|].
  pose proof (validation_errors_are_coded model_world sample_service
                "notes.txt" _ (or_introl eq_refl)) as H.
  destruct H as [Hp | [(Hfs & _) | [_ Hcode]]].
  - vm_compute in Hp. discriminate Hp.
  - vm_compute in Hfs. discriminate Hfs.
  - exact Hcode.
Defined.

(** X13. Validating a local source makes at most the three probes
    [exists], [is_file] and [stat] on that very path: it sends no
    request and never opens the file to read it. *)
Theorem local_validation_only_probes (W : World) (self : FileService) (p : string) (ev : event) :
  is_url_true W p = false →
  ev ∈ trace (validate_image_source W self p)
  ∨ ev ∈ trace (validate_video_source W self p) →
  is_probe_of p ev.
Proof.
  intros Hu. rewrite validate_image_source_eq, validate_video_source_eq, Hu.
  unfold is_probe_of. intros [H | H].
  - destruct (_validate_image_file_cases W self p)
      as [(_ & e & _ & Heq) | [(_ & _ & Heq)
         | [(_ & t & Heq & -> & _) | (_ & t & m & Heq & [-> | ->])]]];
      rewrite Heq in H; cbn [trace fst] in H;
      rewrite ?elem_of_cons, elem_of_nil in H; tauto.
  - destruct (_validate_video_file_cases W self p)
      as [(_ & e & _ & Heq) | [(_ & _ & Heq)
         | [(_ & t & Heq & -> & _) | (_ & t & m & Heq & [-> | ->])]]];
      rewrite Heq in H; cbn [trace fst] in H;
      rewrite ?elem_of_cons, elem_of_nil in H; tauto.
Qed.

Lemma local_validation_only_probes_witness :
  is_probe_of "photo.png" (PathStat "photo.png").
Proof.
  apply (local_validation_only_probes model_world sample_service).
  - vm_compute; reflexivity.
  - left.
    replace (trace (validate_image_source model_world sample_service "photo.png"))
      with [PathExists "photo.png"; PathIsFile "photo.png"; PathStat "photo.png"]
      by (vm_compute; reflexivity).
    rewrite !elem_of_cons. auto.
Defined.

(** *** MIME types and supported formats *)

Lemma lower_ascii_idempotent (c : ascii) :
  PyStr.lower_ascii (PyStr.lower_ascii c) = PyStr.lower_ascii c.
Proof.
  destruct c as [b0 b1 b2 b3 b4 b5 b6 b7].
  destruct b0, b1, b2, b3, b4, b5, b6, b7; vm_compute; reflexivity.
Qed.

Lemma lower_idempotent (s : string) : PyStr.lower (PyStr.lower s) = PyStr.lower s.
Proof.
  induction s as [|c s IH]; [reflexivity|].
  cbn [PyStr.lower]. rewrite lower_ascii_idempotent, IH. reflexivity.
Qed.

Lemma _get_mime_type_video_table (extension : string) :
  _get_mime_type extension true
  = default "video/mp4" (video_mime (PyStr.lower extension)).
Proof.
  unfold _get_mime_type, video_mime. cbn [negb].
  generalize (PyStr.lower extension). intros ext.
  destruct (String.eqb_spec ext ".mp4") as [-> | H1]; [reflexivity|].
  rewrite lookup_insert_ne by congruence.
  destruct (String.eqb_spec ext ".avi") as [-> | H2]; [reflexivity|].
  rewrite lookup_insert_ne by congruence.
  destruct (String.eqb_spec ext ".mov") as [-> | H3]; [reflexivity|].
  rewrite lookup_insert_ne by congruence.
  destruct (String.eqb_spec ext ".webm") as [-> | H4]; [reflexivity|].
  rewrite lookup_insert_ne by congruence.
  destruct (String.eqb_spec ext ".m4v") as [-> | H5]; [reflexivity|].
  rewrite lookup_singleton_ne by congruence. reflexivity.
Qed.

Lemma _get_mime_type_image_table (extension : string) :
  _get_mime_type extension false
  = if String.eqb (PyStr.lower extension) ".jpg"
       || String.eqb (PyStr.lower extension) ".jpeg"
    then "image/jpeg" else "image/png".
Proof.
  unfold _get_mime_type. cbn [negb].
  generalize (PyStr.lower extension). intros ext.
  destruct (String.eqb_spec ext ".png") as [-> | H1]; [reflexivity|].
  rewrite lookup_insert_ne by congruence.
  destruct (String.eqb_spec ext ".jpg") as [-> | H2]; [reflexivity|].
  rewrite lookup_insert_ne by congruence.
  destruct (String.eqb_spec ext ".jpeg") as [-> | H3]; [reflexivity|].
  rewrite lookup_singleton_ne by congruence. reflexivity.
Qed.

(** X14. The MIME type depends on the extension up to letter case
    only.  Without the video flag it is [image/jpeg] for [.jpg] and
    [.jpeg] and [image/png] for every other extension; with it, it is
    [video/x-msvideo] for [.avi], [video/quicktime] for [.mov],
    [video/webm] for [.webm], [video/x-m4v] for [.m4v] and [video/mp4]
    for every other extension.  So the type starts with [image/] or
    [video/] according to the flag alone. *)
Theorem _get_mime_type_values (extension : string) :
  (∀ is_video,
     _get_mime_type (PyStr.lower extension) is_video
     = _get_mime_type extension is_video)
  ∧ _get_mime_type extension false
    = (if String.eqb (PyStr.lower extension) ".jpg"
          || String.eqb (PyStr.lower extension) ".jpeg"
       then "image/jpeg" else "image/png")
  ∧ _get_mime_type extension true
    = (if String.eqb (PyStr.lower extension) ".avi" then "video/x-msvideo"
       else if String.eqb (PyStr.lower extension) ".mov" then "video/quicktime"
       else if String.eqb (PyStr.lower extension) ".webm" then "video/webm"
       else if String.eqb (PyStr.lower extension) ".m4v" then "video/x-m4v"
       else "video/mp4")
  ∧ (∀ is_video,
       PyStr.startswith (_get_mime_type extension is_video)
         (if is_video then "video/" else "image/") = true).
Proof.
  split; [|split; [|split]].
  - intros [|].
    + rewrite !_get_mime_type_video_table, lower_idempotent. reflexivity.
    + rewrite !_get_mime_type_image_table, lower_idempotent. reflexivity.
  - apply _get_mime_type_image_table.
  - rewrite _get_mime_type_video_table. unfold video_mime.
    destruct (String.eqb_spec (PyStr.lower extension) ".mp4") as [-> | _];
      [reflexivity|].
    repeat (destruct (String.eqb _ _); [reflexivity|]). reflexivity.
  - intros [|].
    + rewrite _get_mime_type_video_table. unfold video_mime.
      repeat (destruct (String.eqb _ _); [reflexivity|]). reflexivity.
    + rewrite _get_mime_type_image_table. destruct (_ || _); reflexivity.
Qed.

Lemma supported_formats_lower (cfg : Settings) (x : string) :
  x ∈ supported_image_formats (__init__ cfg)
  ∨ x ∈ supported_video_formats (__init__ cfg) →
  PyStr.lower x = x.
Proof.
  cbn [supported_image_formats supported_video_formats __init__].
  rewrite !elem_of_union, !elem_of_singleton.
  intros [[[-> | ->] | ->] | [[[[-> | ->] | ->] | ->] | ->]]; reflexivity.
Qed.

Lemma supported_formats_disjoint (cfg : Settings) (x : string) :
  x ∈ supported_image_formats (__init__ cfg) →
  x ∈ supported_video_formats (__init__ cfg) → False.
Proof.
  cbn [supported_image_formats supported_video_formats __init__].
  rewrite !elem_of_union, !elem_of_singleton.
  intros [[-> | ->] | ->] [[[[H | H] | H] | H] | H]; discriminate H.
Qed.

Lemma video_mime_supported (cfg : Settings) (x : string) :
  x ∈ supported_video_formats (__init__ cfg) ↔ is_Some (video_mime x).
Proof.
  cbn [supported_video_formats __init__].
  rewrite !elem_of_union, !elem_of_singleton. unfold video_mime. split.
  - intros [[[[-> | ->] | ->] | ->] | ->]; eexists; reflexivity.
  - destruct (String.eqb_spec x ".mp4"); [tauto|].
    destruct (String.eqb_spec x ".avi"); [tauto|].
    destruct (String.eqb_spec x ".mov"); [tauto|].
    destruct (String.eqb_spec x ".webm"); [tauto|].
    destruct (String.eqb_spec x ".m4v"); [tauto|].
    intros [m Hm]. discriminate Hm.
Qed.

Lemma image_and_video_prefix (ct : string) :
  PyStr.startswith ct "image/" = true →
  PyStr.startswith ct "video/" = true → False.
Proof.
  unfold PyStr.startswith. destruct ct as [|c ct]; [discriminate|].
  cbn [String.prefix].
  destruct (ascii_dec "i" c) as [<- | Hi]; [|discriminate].
  intros _. destruct (ascii_dec "v" "i"); discriminate.
Qed.

(** X15. No source is accepted both as an image and as a video: the
    two sets of extensions have no element in common, and no content
    type starts with [image/] and with [video/].  So a source that
    passes image validation fails video validation. *)
Theorem no_source_is_image_and_video (W : World) (cfg : Settings) (source : string) :
  outcome (validate_image_source W (__init__ cfg) source) = Ok tt →
  ∃ e, outcome (validate_video_source W (__init__ cfg) source) = Err e.
Proof.
  intros Himg.
  destruct (outcome (validate_video_source W (__init__ cfg) source))
    as [[]|e] eqn:Hvid; [exfalso | eauto].
  destruct (is_url_true W source) eqn:Hu.
  - destruct (url_validation_accepts_iff W (__init__ cfg) source Hu) as [Hi Hv].
    apply Hi in Himg. apply Hv in Hvid. unfold probe_accepts in *.
    destruct (http_head W source) as [r|e]; [|discriminate].
    apply andb_true_iff in Himg as [_ Himg].
    apply andb_true_iff in Hvid as [_ Hvid].
    exact (image_and_video_prefix _ Himg Hvid).
  - rewrite validate_image_source_eq, Hu in Himg.
    rewrite validate_video_source_eq, Hu in Hvid.
    destruct (_validate_image_file_cases W (__init__ cfg) source)
      as [(_ & e0 & _ & Heq) | [(_ & _ & Heq)
         | [(_ & t & _ & _ & Hin & _) | (_ & t & m & Heq & _)]]];
      try (rewrite Heq in Himg; discriminate Himg).
    destruct (_validate_video_file_cases W (__init__ cfg) source)
      as [(_ & e1 & _ & Heq) | [(_ & _ & Heq)
         | [(_ & t' & _ & _ & Hin' & _) | (_ & t' & m & Heq & _)]]];
      try (rewrite Heq in Hvid; discriminate Hvid).
    exact (supported_formats_disjoint cfg _ Hin Hin').
Qed.

Lemma no_source_is_image_and_video_witness :
  outcome (validate_image_source model_world sample_service "photo.png") = Ok tt
  ∧ ∃ e, outcome (validate_video_source model_world sample_service "photo.png")
         = Err e.
Proof.
  split; [vm_compute; reflexivity|].
  apply (no_source_is_image_and_video model_world sample_settings "photo.png").
  vm_compute; reflexivity.
Defined.

(** *** Encoding *)

Lemma encode_image_after_validation (W : World) (self : FileService) (p : string) (t : list event) (content : list byte) :
  is_url_true W p = false →
  _validate_image_file W self p = (t, Ok tt) →
  fs W p = Some (RegularFile content) →
  encode_image_to_base64 W self p
  = ((t ++ [FileRead p])%list,
     match read_error W p with
     | Some e => Err e
     | None =>
         Ok ("data:" +:+ _get_mime_type (Sys.path_suffix W p) false
             +:+ ";base64,"
             +:+ Base64.decode_utf8 (Base64.b64encode content))
     end).
Proof.
  intros Hu Heq Hfs. unfold encode_image_to_base64. rewrite dispatch, Hu, Heq.
  unfold read_bytes. rewrite Hfs. destruct (read_error W p); reflexivity.
Qed.

(** X16. A local source that passes image validation is a regular file,
    and encoding it opens that file once, after the three probes.  If
    opening or reading it fails, the encoder raises that error as it
    is.  Otherwise the result is [data:], the MIME type, [;base64,] and
    the base64 text of the content, which decodes to the content.
    The MIME type is [image/png] for [.png] and [image/jpeg] for
    [.jpg] and [.jpeg], in any letter case. *)
Theorem encode_image_data_uri (W : World) (cfg : Settings) (p : string) :
  is_url_true W p = false →
  outcome (validate_image_source W (__init__ cfg) p) = Ok tt →
  ∃ content : list byte,
    fs W p = Some (RegularFile content)
    ∧ trace (encode_image_to_base64 W (__init__ cfg) p)
      = [PathExists p; PathIsFile p; PathStat p; FileRead p]
    ∧ (∀ e, read_error W p = Some e →
            outcome (encode_image_to_base64 W (__init__ cfg) p) = Err e)
    ∧ (read_error W p = None →
       ∃ mime payload : string,
         outcome (encode_image_to_base64 W (__init__ cfg) p)
         = Ok ("data:" +:+ mime +:+ ";base64," +:+ payload)
         ∧ mime = (if String.eqb (PyStr.lower (Sys.path_suffix W p)) ".png"
                   then "image/png" else "image/jpeg")
         ∧ Base64.b64decode payload = Some content).
Proof.
  intros Hu Hvalid. rewrite validate_image_source_eq, Hu in Hvalid.
  destruct (_validate_image_file_cases W (__init__ cfg) p)
    as [(_ & e0 & _ & Heq) | [(_ & _ & Heq)
       | [(_ & t & Heq & -> & Hin & content & Hfs & _)
         | (_ & t & m & Heq & _)]]];
    try (rewrite Heq in Hvalid; discriminate Hvalid).
  exists content. split; [exact Hfs|].
  rewrite (encode_image_after_validation W _ _ _ _ Hu Heq Hfs).
  cbn [trace outcome fst snd]. split; [reflexivity|]. split.
  - intros e ->. reflexivity.
  - intros ->.
    exists (_get_mime_type (Sys.path_suffix W p) false),
           (Base64.decode_utf8 (Base64.b64encode content)).
    split; [reflexivity|]. split.
    + rewrite _get_mime_type_image_table.
      cbn [supported_image_formats __init__] in Hin.
      rewrite !elem_of_union, !elem_of_singleton in Hin.
      destruct Hin as [[-> | ->] | ->]; reflexivity.
    + apply Base64Facts.b64decode_b64encode.
Qed.

Lemma encode_image_data_uri_witness :
  ∃ mime payload : string,
    outcome (encode_image_to_base64 model_world sample_service "photo.png")
    = Ok ("data:" +:+ mime +:+ ";base64," +:+ payload)
    ∧ mime = (if String.eqb
                    (PyStr.lower (Sys.path_suffix model_world "photo.png"))
                    ".png"
            then "image/png" else "image/jpeg")
    ∧ Base64.b64decode payload = Some (bytes_of "Man").
Proof.
  destruct (encode_image_data_uri model_world sample_settings "photo.png")
    as (content & Hfs & _ & _ & Hread).
  - vm_compute; reflexivity.
  - vm_compute; reflexivity.
  - destruct Hread as (mime & payload & Hout & Hmime & Hdec);
      [vm_compute; reflexivity|].
    exists mime, payload. split; [exact Hout|]. split; [exact Hmime|].
    rewrite Hdec. vm_compute in Hfs. injection Hfs as <-. reflexivity.
Defined.

Lemma encode_video_after_validation (W : World) (self : FileService) (p : string) (t : list event) (content : list byte) :
  is_url_true W p = false →
  _validate_video_file W self p = (t, Ok tt) →
  fs W p = Some (RegularFile content) →
  encode_video_to_base64 W self p
  = ((t ++ [FileRead p])%list,
     match read_error W p with
     | Some e => Err e
     | None =>
         Ok ("data:" +:+ _get_mime_type (Sys.path_suffix W p) true
             +:+ ";base64,"
             +:+ Base64.decode_utf8 (Base64.b64encode content))
     end).
Proof.
  intros Hu Heq Hfs. unfold encode_video_to_base64. rewrite dispatch, Hu, Heq.
  unfold read_bytes. rewrite Hfs. destruct (read_error W p); reflexivity.
Qed.

(** X17. A local source that passes video validation is a regular file,
    and encoding it opens that file once, after the three probes.  If
    opening or reading it fails, the encoder raises that error as it
    is.  Otherwise the result is [data:], the MIME type, [;base64,] and
    the base64 text of the content, which decodes to the content.
    The MIME type is the table entry of the lower-cased extension,
    never the fall-back. *)
Theorem encode_video_data_uri (W : World) (cfg : Settings) (p : string) :
  is_url_true W p = false →
  outcome (validate_video_source W (__init__ cfg) p) = Ok tt →
  ∃ content : list byte,
    fs W p = Some (RegularFile content)
    ∧ trace (encode_video_to_base64 W (__init__ cfg) p)
      = [PathExists p; PathIsFile p; PathStat p; FileRead p]
    ∧ (∀ e, read_error W p = Some e →
            outcome (encode_video_to_base64 W (__init__ cfg) p) = Err e)
    ∧ (read_error W p = None →
       ∃ mime payload : string,
         outcome (encode_video_to_base64 W (__init__ cfg) p)
         = Ok ("data:" +:+ mime +:+ ";base64," +:+ payload)
         ∧ video_mime (PyStr.lower (Sys.path_suffix W p)) = Some mime
         ∧ Base64.b64decode payload = Some content).
Proof.
  intros Hu Hvalid. rewrite validate_video_source_eq, Hu in Hvalid.
  destruct (_validate_video_file_cases W (__init__ cfg) p)
    as [(_ & e0 & _ & Heq) | [(_ & _ & Heq)
       | [(_ & t & Heq & -> & Hin & content & Hfs & _)
         | (_ & t & m & Heq & _)]]];
    try (rewrite Heq in Hvalid; discriminate Hvalid).
  exists content. split; [exact Hfs|].
  rewrite (encode_video_after_validation W _ _ _ _ Hu Heq Hfs).
  cbn [trace outcome fst snd]. split; [reflexivity|]. split.
  - intros e ->. reflexivity.
  - intros ->.
    exists (_get_mime_type (Sys.path_suffix W p) true),
           (Base64.decode_utf8 (Base64.b64encode content)).
    split; [reflexivity|]. split.
    + rewrite _get_mime_type_video_table.
      apply video_mime_supported in Hin as [m ->]. reflexivity.
    + apply Base64Facts.b64decode_b64encode.
Qed.

Lemma encode_video_data_uri_witness :
  ∃ mime payload : string,
    outcome (encode_video_to_base64 model_world sample_service "movie.MP4")
    = Ok ("data:" +:+ mime +:+ ";base64," +:+ payload)
    ∧ video_mime (PyStr.lower (Sys.path_suffix model_world "movie.MP4"))
      = Some mime
    ∧ Base64.b64decode payload = Some (bytes_of "clip").
Proof.
  destruct (encode_video_data_uri model_world sample_settings "movie.MP4")
    as (content & Hfs & _ & _ & Hread).
  - vm_compute; reflexivity.
  - vm_compute; reflexivity.
  - destruct Hread as (mime & payload & Hout & Hmime & Hdec);
      [vm_compute; reflexivity|].
    exists mime, payload. split; [exact Hout|]. split; [exact Hmime|].
    rewrite Hdec. vm_compute in Hfs. injection Hfs as <-. reflexivity.
Defined.

(** X18. When validation of a local source fails, the encoder fails
    with the same exception after the same probes: the file is not
    opened. *)
Theorem encode_fails_as_validation (W : World) (self : FileService) (p : string) (e : exn) :
  is_url_true W p = false →
  (outcome (validate_image_source W self p) = Err e →
   encode_image_to_base64 W self p
   = (trace (validate_image_source W self p), Err e))
  ∧ (outcome (validate_video_source W self p) = Err e →
     encode_video_to_base64 W self p
     = (trace (validate_video_source W self p), Err e)).
Proof.
  intros Hu. rewrite validate_image_source_eq, validate_video_source_eq, Hu.
  unfold encode_image_to_base64, encode_video_to_base64.
  rewrite !dispatch, Hu.
  split.
  - destruct (_validate_image_file W self p) as [t r]. cbn [outcome trace fst snd].
    intros ->. reflexivity.
  - destruct (_validate_video_file W self p) as [t r]. cbn [outcome trace fst snd].
    intros ->. reflexivity.
Qed.

Lemma encode_fails_as_validation_witness :
  encode_image_to_base64 model_world sample_service "over.png"
  = ([PathExists "over.png"; PathIsFile "over.png"; PathStat "over.png"],
     Err (ValidationError
            "Image file too large: 1.00MB. Maximum allowed: 1MB" None None)).
Proof.
  destruct (encode_fails_as_validation model_world sample_service "over.png"
              (ValidationError
                 "Image file too large: 1.00MB. Maximum allowed: 1MB" None None))
    as [Himg _].
  - vm_compute; reflexivity.
  - rewrite Himg; [|vm_compute; reflexivity].
    vm_compute; reflexivity.
Defined.

(** *** The base64 text *)

Module Base64Shape.

Import Base64 Base64Facts.

Lemma sextet_char_is_base64_char (s : sextet) :
  is_base64_char (sextet_char s) = true.
Proof.
  destruct s as [[[[[b5 b4] b3] b2] b1] b0].
  destruct b5, b4, b3, b2, b1, b0; vm_compute; reflexivity.
Qed.

Lemma enc_is_base64_char (s : sextet) :
  is_base64_char (ascii_of_byte (enc s)) = true.
Proof. rewrite char_of_enc. apply sextet_char_is_base64_char. Qed.

Lemma pad_is_base64_char :
  is_base64_char (ascii_of_byte (byte_of_ascii pad)) = true.
Proof. reflexivity. Qed.

Lemma padded_length (n : nat) :
  ((S (S (S n)) + 2) / 3 = S ((n + 2) / 3))%nat.
Proof.
  replace (S (S (S n)) + 2)%nat with (1 * 3 + (n + 2))%nat by lia.
  rewrite Nat.div_add_l by lia. reflexivity.
Qed.

End Base64Shape.

(** X19. The base64 text of [n] bytes has four characters for every
    started group of three bytes, and each of them is a letter, a
    digit, [+], [/] or [=]: the text is ASCII, so decoding it as UTF-8
    cannot fail. *)
Theorem b64encode_shape (data : list byte) :
  length (Base64.b64encode data) = (4 * ((length data + 2) / 3))%nat
  ∧ forallb (λ b, is_base64_char (ascii_of_byte b)) (Base64.b64encode data)
    = true.
Proof.
  induction data as [|a|a b|a b c rest [IHlen IHchars]]
    using Base64Facts.list_ind_by_three.
  - split; reflexivity.
  - cbn [Base64.b64encode]. Base64Facts.bits_of a.
    split; [reflexivity|].
    cbn [forallb].
    rewrite !Base64Shape.enc_is_base64_char. reflexivity.
  - cbn [Base64.b64encode]. Base64Facts.bits_of a. Base64Facts.bits_of b.
    split; [reflexivity|].
    cbn [forallb].
    rewrite !Base64Shape.enc_is_base64_char. reflexivity.
  - cbn [Base64.b64encode].
    Base64Facts.bits_of a. Base64Facts.bits_of b. Base64Facts.bits_of c.
    split.
    + cbn [length]. rewrite IHlen, Base64Shape.padded_length. lia.
    + cbn [forallb].
      rewrite !Base64Shape.enc_is_base64_char, IHchars. reflexivity.
Qed.

(** Encoding loses nothing: contents with the same base64 text are the
    same. *)
Lemma b64encode_injective (data1 data2 : list byte) :
  Base64.b64encode data1 = Base64.b64encode data2 → data1 = data2.
Proof.
  intros Heq.
  pose proof (Base64Facts.b64decode_b64encode data1) as H1.
  rewrite Heq, Base64Facts.b64decode_b64encode in H1.
  congruence.
Qed.

(** *** File information, continued *)

Section FileInfoFacts.

Variable W : World.
Variable self : FileService.

Lemma get_file_info_reachable_eq source r :
  is_url_true W source = true → http_head W source = Ok r →
  is_success r = true →
  get_file_info W self source =
  ([HttpHead source client_timeout],
   Ok {[ "source" := VStr source;
         "type" := VStr "url";
         "size" := VNone;
         "content_type" := of_optional_str (headers_get r "content-type");
         "accessible" := VBool true ]}).
Proof.
  intros Hu Hh Hs. rewrite get_file_info_eq, Hu.
  unfold client_head, raise_for_status. rewrite Hh.
  unfold mbind, IO_bind, bind. rewrite Hs. reflexivity.
Qed.

(** The ways a call can go, with the record of each. *)
Lemma get_file_info_cases source :
  (is_url_true W source = false ∧ fs W source = None
   ∧ ∃ e, probe_error W source = Some e
          ∧ get_file_info W self source = ([PathExists source], Err e))
  ∨ (is_url_true W source = true ∧ probe_succeeds W source = true
   ∧ ∃ r, http_head W source = Ok r
          ∧ get_file_info W self source =
            ([HttpHead source client_timeout],
             Ok {[ "source" := VStr source;
                   "type" := VStr "url";
                   "size" := VNone;
                   "content_type" :=
                     of_optional_str (headers_get r "content-type");
                   "accessible" := VBool true ]}))
  ∨ (is_url_true W source = true ∧ probe_succeeds W source = false
     ∧ ∃ e, get_file_info W self source =
            ([HttpHead source client_timeout],
             Ok (unreachable_record source e)))
  ∨ (is_url_true W source = false ∧ fs W source = None
     ∧ probe_error W source = None
     ∧ get_file_info W self source =
       ([PathExists source],
        Ok {[ "source" := VStr source;
              "type" := VStr "file";
              "size" := VNone;
              "content_type" := VNone;
              "accessible" := VBool false;
              "error" := VStr "File not found" ]}))
  ∨ (is_url_true W source = false
     ∧ ∃ n, fs W source = Some n
            ∧ get_file_info W self source =
              ([PathExists source; PathStat source],
               Ok {[ "source" := VStr source;
                     "type" := VStr "file";
                     "size" := VInt (node_size n);
                     "size_mb" :=
                       VFloat (inject_Z (node_size n) / inject_Z (1024 * 1024));
                     "content_type" :=
                       VStr (_get_mime_type (Sys.path_suffix W source)
                               (bool_decide
                                  (Sys.path_suffix W source
                                   ∈ supported_video_formats self)));
                     "accessible" := VBool true;
                     "extension" := VStr (Sys.path_suffix W source) ]})).
Proof.
  unfold probe_succeeds.
  destruct (is_url_true W source) eqn:Hu.
  - right. destruct (http_head W source) as [r|e] eqn:Hh.
    + destruct (is_success r) eqn:Hs.
      * left. do 2 (split; [reflexivity|]). exists r. split; [reflexivity|].
        apply (get_file_info_reachable_eq _ _ Hu Hh Hs).
      * right. left. do 2 (split; [reflexivity|]). eexists.
        apply (get_file_info_bad_status _ _ _ _ Hu Hh Hs).
    + right. left. do 2 (split; [reflexivity|]). eexists.
      apply (get_file_info_request_fails _ _ _ _ Hu Hh).
  - destruct (fs W source) as [n|] eqn:Hfs.
    + do 4 right. split; [reflexivity|]. exists n. split; [reflexivity|].
      apply (get_file_info_present _ _ _ _ Hu Hfs).
    + destruct (probe_error W source) as [e|] eqn:Hpe.
      * left. do 2 (split; [reflexivity|]). exists e. split; [reflexivity|].
        apply (get_file_info_probe_raises _ _ _ _ Hu Hfs Hpe).
      * do 3 right. left. do 3 (split; [reflexivity|]).
        apply (get_file_info_missing _ _ _ Hu Hfs Hpe).
Qed.

End FileInfoFacts.

(** X20. For a URL source, and for a local source whose existence
    probe does not fail with an [OSError], [get_file_info] returns a
    record that echoes the source, says [url] or [file] as [is_url]
    does, and has the entries [size], [content_type] and [accessible].
    It has an [error] entry exactly when [accessible] is false; and
    [accessible] is true exactly when the HEAD request was answered
    with a 2xx status (URL) or the path exists (local), directories
    included.  When the probe of a local source fails, its error is
    raised as it is. *)
Theorem get_file_info_record_shape (W : World) (self : FileService) (source : string) :
  (is_url_true W source = true ∨ probe_raises W source = None →
   ∃ (d : gmap string pyval) (acc : bool),
     outcome (get_file_info W self source) = Ok d
     ∧ d !! "source" = Some (VStr source)
     ∧ d !! "type"
       = Some (VStr (if is_url_true W source then "url" else "file"))
     ∧ is_Some (d !! "size")
     ∧ is_Some (d !! "content_type")
     ∧ d !! "accessible" = Some (VBool acc)
     ∧ (is_Some (d !! "error") ↔ acc = false)
     ∧ acc = (if is_url_true W source
              then probe_succeeds W source
              else bool_decide (is_Some (fs W source))))
  ∧ (∀ e, is_url_true W source = false ∧ probe_raises W source = Some e →
          outcome (get_file_info W self source) = Err e).
Proof.
  unfold probe_raises.
  destruct (get_file_info_cases W self source)
    as [(Hu & Hfs & e & Hpe & Heq) | [(Hu & Hp & r & _ & Heq)
       | [(Hu & Hp & e & Heq)
         | [(Hu & Hfs & Hpe & Heq) | (Hu & n & Hfs & Heq)]]]];
    rewrite Heq, Hu, ?Hfs, ?Hpe; cbn [outcome snd]; (split;
      [|intros e' [Hf He']; first [discriminate Hf | discriminate He'
                                   | congruence]]).
  - intros [Hf | Hf]; discriminate Hf.
  - intros _. eexists; eexists. split; [reflexivity|]. rewrite Hp.
    repeat (split; [reflexivity || (eexists; reflexivity)|]).
    split; [|reflexivity]. split; [intros [x Hx]; discriminate Hx | discriminate].
  - intros _. eexists; eexists. split; [reflexivity|]. rewrite Hp.
    unfold unreachable_record.
    repeat (split; [reflexivity || (eexists; reflexivity)|]).
    split; [|reflexivity]. split; [reflexivity | intros _; eexists; reflexivity].
  - intros _. eexists; eexists. split; [reflexivity|].
    repeat (split; [reflexivity || (eexists; reflexivity)|]).
    split; [|reflexivity]. split; [reflexivity | intros _; eexists; reflexivity].
  - intros _. eexists; eexists. split; [reflexivity|].
    repeat (split; [reflexivity || (eexists; reflexivity)|]).
    split; [|reflexivity]. split; [intros [x Hx]; discriminate Hx | discriminate].
Qed.

Lemma get_file_info_record_shape_witness :
  (∃ d : gmap string pyval,
     outcome (get_file_info model_world sample_service "albums") = Ok d
     ∧ d !! "type" = Some (VStr "file")
     ∧ d !! "accessible" = Some (VBool true))
  ∧ ∃ m, outcome (get_file_info model_world sample_service long_name)
         = Err (OSError m).
Proof.
  split.
  - destruct (get_file_info_record_shape model_world sample_service "albums")
      as [Hrecord _].
    destruct Hrecord as (d & acc & Hd & _ & Htype & _ & _ & Hacc & _ & ->);
      [right; vm_compute; reflexivity|].
    exists d. split; [exact Hd|]. split; [exact Htype | exact Hacc].
  - destruct (get_file_info_record_shape model_world sample_service long_name)
      as [_ Hraise].
    eexists. apply Hraise. split; vm_compute; reflexivity.
Defined.

(** X21. [get_file_info] sends one HEAD request for a URL source and
    nothing else; for a local source it asks whether the path exists
    and, if so, for its [stat].  It never opens a file. *)
Theorem get_file_info_trace (W : World) (self : FileService) (source : string) :
  trace (get_file_info W self source) =
  if is_url_true W source then [HttpHead source 10]
  else match fs W source with
       | None => [PathExists source]
       | Some _ => [PathExists source; PathStat source]
       end.
Proof.
  destruct (get_file_info_cases W self source)
    as [(Hu & Hfs & e & _ & Heq) | [(Hu & Hp & r & _ & Heq)
       | [(Hu & Hp & e & Heq)
         | [(Hu & Hfs & _ & Heq) | (Hu & n & Hfs & Heq)]]]];
    rewrite Heq, Hu, ?Hfs; reflexivity.
Qed.

(** X22. For a local source whose existence probe does not fail with
    an [OSError], [get_file_info] says [accessible = False] exactly
    when validation raises [FileNotFoundError].  Being accessible does
    not mean being valid: a directory is accessible. *)
Theorem inaccessible_iff_not_found (W : World) (self : FileService) (p : string) :
  is_url_true W p = false →
  probe_raises W p = None →
  ∃ d : gmap string pyval,
    outcome (get_file_info W self p) = Ok d
    ∧ (d !! "accessible" = Some (VBool false)
       ↔ ∃ m, outcome (validate_image_source W self p)
              = Err (FileNotFoundError m None))
    ∧ (d !! "accessible" = Some (VBool false)
       ↔ ∃ m, outcome (validate_video_source W self p)
              = Err (FileNotFoundError m None)).
Proof.
  intros Hu Hprobe. unfold probe_raises in Hprobe.
  rewrite validate_image_source_eq, validate_video_source_eq, Hu.
  destruct (fs W p) as [n|] eqn:Hfs.
  - rewrite (get_file_info_present W self _ _ Hu Hfs).
    eexists. split; [reflexivity|].
    split; (split; [discriminate|]); intros [m Hm].
    + destruct (_validate_image_file_cases W self p)
        as [(Hnone & _) | [(Hnone & _)
           | [(_ & t & Heq & _) | (_ & t & m' & Heq & _)]]];
        [congruence | congruence | rewrite Heq in Hm; discriminate Hm
        | rewrite Heq in Hm; discriminate Hm].
    + destruct (_validate_video_file_cases W self p)
        as [(Hnone & _) | [(Hnone & _)
           | [(_ & t & Heq & _) | (_ & t & m' & Heq & _)]]];
        [congruence | congruence | rewrite Heq in Hm; discriminate Hm
        | rewrite Heq in Hm; discriminate Hm].
  - rewrite (get_file_info_missing W self _ Hu Hfs Hprobe).
    rewrite (_validate_image_file_missing W self _ Hfs Hprobe).
    rewrite (_validate_video_file_missing W self _ Hfs Hprobe).
    eexists. split; [reflexivity|].
    split; (split; [intros _; eexists; reflexivity | reflexivity]).
Qed.

Lemma inaccessible_iff_not_found_witness :
  (∃ d : gmap string pyval,
     outcome (get_file_info model_world sample_service "albums") = Ok d
     ∧ d !! "accessible" = Some (VBool true))
  ∧ outcome (validate_image_source model_world sample_service "albums")
    = Err (ValidationError "Path is not a file: albums" None None).
Proof.
  split; [|vm_compute; reflexivity].
  destruct (inaccessible_iff_not_found model_world sample_service "albums")
    as (d & Hd & _ & _);
    [vm_compute; reflexivity | vm_compute; reflexivity |].
  exists d. split; [exact Hd|].
  vm_compute in Hd. injection Hd as <-. vm_compute; reflexivity.
Defined.

Lemma accepted_probe_is_reported (W : World) (self : FileService) (source : string) (c : ascii) (prefix : string) :
  is_url_true W source = true →
  probe_accepts W source (String c prefix) = true →
  ∃ (d : gmap string pyval) (content_type : string),
    outcome (get_file_info W self source) = Ok d
    ∧ d !! "accessible" = Some (VBool true)
    ∧ d !! "content_type" = Some (VStr content_type)
    ∧ PyStr.startswith (PyStr.lower content_type) (String c prefix) = true.
Proof.
  intros Hu Hp. unfold probe_accepts in Hp.
  destruct (http_head W source) as [r|e] eqn:Hh; [|discriminate].
  apply andb_true_iff in Hp as [Hs Hct].
  rewrite (get_file_info_reachable_eq W self _ _ Hu Hh Hs).
  unfold content_type_of in Hct.
  destruct (headers_get r "content-type") as [ct|] eqn:Hget.
  - eexists. exists ct. split; [reflexivity|]. split; [reflexivity|].
    split; [reflexivity | exact Hct].
  - discriminate Hct.
Qed.

(** X23. A URL that passes image or video validation is reported as
    accessible, and the content type reported is the header as it was
    sent, which lower-cased starts with [image/] (resp. [video/]). *)
Theorem validated_url_is_accessible (W : World) (self : FileService) (source : string) :
  is_url_true W source = true →
  (outcome (validate_image_source W self source) = Ok tt →
   ∃ (d : gmap string pyval) (content_type : string),
     outcome (get_file_info W self source) = Ok d
     ∧ d !! "accessible" = Some (VBool true)
     ∧ d !! "content_type" = Some (VStr content_type)
     ∧ PyStr.startswith (PyStr.lower content_type) "image/" = true)
  ∧ (outcome (validate_video_source W self source) = Ok tt →
     ∃ (d : gmap string pyval) (content_type : string),
       outcome (get_file_info W self source) = Ok d
       ∧ d !! "accessible" = Some (VBool true)
       ∧ d !! "content_type" = Some (VStr content_type)
       ∧ PyStr.startswith (PyStr.lower content_type) "video/" = true).
Proof.
  intros Hu.
  destruct (url_validation_accepts_iff W self source Hu) as [Hi Hv].
  split; intros Hvalid.
  - apply Hi in Hvalid. exact (accepted_probe_is_reported W self _ _ _ Hu Hvalid).
  - apply Hv in Hvalid. exact (accepted_probe_is_reported W self _ _ _ Hu Hvalid).
Qed.

Lemma validated_url_is_accessible_witness :
  ∃ (d : gmap string pyval) (content_type : string),
    outcome (get_file_info model_world sample_service
               "https://example.com/a.png") = Ok d
    ∧ d !! "accessible" = Some (VBool true)
    ∧ d !! "content_type" = Some (VStr content_type)
    ∧ PyStr.startswith (PyStr.lower content_type) "image/" = true.
Proof.
  destruct (validated_url_is_accessible model_world sample_service
              "https://example.com/a.png") as [Himg _].
  - vm_compute; reflexivity.
  - apply Himg. vm_compute; reflexivity.
Defined.

(** X24. For a local file that passes image validation and can be
    opened for reading, the content type [get_file_info] reports is the
    MIME type the encoder puts in the data URI. *)
Theorem image_content_type_matches_data_uri (W : World) (cfg : Settings) (p : string) :
  is_url_true W p = false →
  read_error W p = None →
  outcome (validate_image_source W (__init__ cfg) p) = Ok tt →
  ∃ (d : gmap string pyval) (mime payload : string),
    outcome (get_file_info W (__init__ cfg) p) = Ok d
    ∧ d !! "content_type" = Some (VStr mime)
    ∧ outcome (encode_image_to_base64 W (__init__ cfg) p)
      = Ok ("data:" +:+ mime +:+ ";base64," +:+ payload).
Proof.
  intros Hu Hread Hvalid.
  assert (Hin : PyStr.lower (Sys.path_suffix W p)
                ∈ supported_image_formats (__init__ cfg)).
  { pose proof Hvalid as Hv. rewrite validate_image_source_eq, Hu in Hv.
    destruct (_validate_image_file_cases W (__init__ cfg) p)
      as [(_ & e0 & _ & Heq) | [(_ & _ & Heq)
         | [(_ & t & _ & _ & Hin & _) | (_ & t & m & Heq & _)]]];
      [rewrite Heq in Hv; discriminate Hv
      | rewrite Heq in Hv; discriminate Hv | exact Hin
      | rewrite Heq in Hv; discriminate Hv]. }
  assert (Hraw : Sys.path_suffix W p ∉ supported_video_formats (__init__ cfg)).
  { intros Hv.
    pose proof (supported_formats_lower cfg _ (or_intror Hv)) as Hl.
    rewrite Hl in Hin. exact (supported_formats_disjoint cfg _ Hin Hv). }
  rewrite validate_image_source_eq, Hu in Hvalid.
  destruct (_validate_image_file_cases W (__init__ cfg) p)
    as [(_ & e0 & _ & Heq) | [(_ & _ & Heq)
       | [(_ & t & Heq & _ & _ & content & Hfs & _)
         | (_ & t & m & Heq & _)]]];
    try (rewrite Heq in Hvalid; discriminate Hvalid).
  rewrite (get_file_info_present W _ _ _ Hu Hfs).
  rewrite (bool_decide_eq_false_2 _ Hraw).
  rewrite (encode_image_after_validation W _ _ _ _ Hu Heq Hfs), Hread.
  do 3 eexists. cbn [outcome snd].
  split; [reflexivity|]. split; reflexivity.
Qed.

Lemma image_content_type_matches_data_uri_witness :
  ∃ (d : gmap string pyval) (mime payload : string),
    outcome (get_file_info model_world sample_service "photo.png") = Ok d
    ∧ d !! "content_type" = Some (VStr mime)
    ∧ outcome (encode_image_to_base64 model_world sample_service "photo.png")
      = Ok ("data:" +:+ mime +:+ ";base64," +:+ payload).
Proof.
  apply (image_content_type_matches_data_uri model_world sample_settings
           "photo.png"); vm_compute; reflexivity.
Defined.

(** X25. For an existing local path whose suffix is, as written, one of
    the video extensions, [get_file_info] reports the video MIME type
    of that extension; when the path also passes video validation and
    can be opened for reading, this is the MIME type of the data URI. *)
Theorem video_content_type_for_lower_case_suffix (W : World) (cfg : Settings) (p : string) (n : node) :
  is_url_true W p = false →
  fs W p = Some n →
  Sys.path_suffix W p ∈ supported_video_formats (__init__ cfg) →
  ∃ (d : gmap string pyval) (mime : string),
    outcome (get_file_info W (__init__ cfg) p) = Ok d
    ∧ video_mime (Sys.path_suffix W p) = Some mime
    ∧ d !! "content_type" = Some (VStr mime)
    ∧ (outcome (validate_video_source W (__init__ cfg) p) = Ok tt →
       read_error W p = None →
       ∃ payload,
         outcome (encode_video_to_base64 W (__init__ cfg) p)
         = Ok ("data:" +:+ mime +:+ ";base64," +:+ payload)).
Proof.
  intros Hu Hfs Hin.
  pose proof (supported_formats_lower cfg _ (or_intror Hin)) as Hl.
  destruct (proj1 (video_mime_supported cfg _) Hin) as [mime Hmime].
  rewrite (get_file_info_present W _ _ _ Hu Hfs).
  rewrite (bool_decide_eq_true_2 _ Hin), _get_mime_type_video_table, Hl, Hmime.
  eexists. exists mime. split; [reflexivity|]. split; [reflexivity|].
  split; [reflexivity|]. intros Hvalid Hread.
  rewrite validate_video_source_eq, Hu in Hvalid.
  destruct (_validate_video_file_cases W (__init__ cfg) p)
    as [(_ & e0 & _ & Heq) | [(_ & _ & Heq)
       | [(_ & t & Heq & _ & _ & content & Hfs' & _)
         | (_ & t & m & Heq & _)]]];
    try (rewrite Heq in Hvalid; discriminate Hvalid).
  rewrite (encode_video_after_validation W _ _ _ _ Hu Heq Hfs'), Hread.
  rewrite _get_mime_type_video_table, Hl, Hmime.
  eexists. reflexivity.
Qed.

Lemma video_content_type_for_lower_case_suffix_witness :
  ∃ (d : gmap string pyval),
    outcome (get_file_info model_world sample_service "clip.mp4") = Ok d
    ∧ d !! "content_type" = Some (VStr "video/mp4").
Proof.
  destruct (video_content_type_for_lower_case_suffix model_world
              sample_settings "clip.mp4" (RegularFile (bytes_of "clip")))
    as (d & mime & Hd & Hmime & Hct & _).
  - vm_compute; reflexivity.
  - vm_compute; reflexivity.
  - by_bool_decide.
  - exists d. split; [exact Hd|]. rewrite Hct.
    replace (Sys.path_suffix model_world "clip.mp4") with ".mp4" in Hmime
      by (vm_compute; reflexivity).
    injection Hmime as <-. reflexivity.
Defined.

(** *** The value [is_url] returns *)

(** X26. [is_url] returns either [False] or a string, never [True]:
    for a source with scheme [http] or [https] it returns the network
    location itself, which is the empty string when there is none. *)
Theorem is_url_returns_netloc (W : World) (source : string) :
  (is_url W source = Ok (VBool false)
   ∧ ∀ r, Sys.urlparse W source = Ok r →
          scheme r ≠ "http" ∧ scheme r ≠ "https")
  ∨ (∃ r, Sys.urlparse W source = Ok r
          ∧ (scheme r = "http" ∨ scheme r = "https")
          ∧ is_url W source = Ok (VStr (netloc r))).
Proof.
  destruct (Sys.urlparse W source) as [r|e] eqn:Hp.
  - rewrite (is_url_parsed _ _ _ Hp). unfold py_and.
    destruct (bool_decide_reflect (scheme r ∈ ["http"; "https"])) as [Hin|Hout];
      cbn [truthy]; rewrite scheme_in_tuple in *.
    + right. exists r. auto.
    + left. split; [reflexivity|]. intros r' [= <-]. tauto.
  - left. rewrite (is_url_parse_error _ _ _ Hp). split; [reflexivity|].
    intros r [=].
Qed.
